(** * Citation highlighting service (app.py): a shallow embedding

    The development follows the layout of [app.py]:

    - [Py]      : the fragment of Python the program relies on (exceptions as
                  results, [int], [range], [min]/[max], [zip]);
    - [Re]      : the fragment of the [re] module used by the two patterns, as
                  a backtracking matcher with greedy repetition;
    - [Citation]: [extract_document_name] and [extract_lines];
    - [Layout]  : the pdfminer page layout and [extract_line_bboxes];
    - [Pdf]     : pypdf objects, [highlight_annotation] and the "/Annots" update;
    - [App]     : the [view_pdf] endpoint over its external collaborators;
    - [Bounds]  : [is_within_bbox];
    - [Api]     : the [process_response] endpoint on a parsed JSON body.

    Text is modelled as a list of 8-bit characters; a digit is one of
    [0-9] (the decimal digits of other scripts, which Python's [\d] and
    [int] accept as well, are outside the model).  [int] refuses decimal
    strings of more than 4300 digits, as the interpreter does. *)

From Stdlib Require Import Floats.
From Stdlib Require Import Ascii String ZArith Lia Bool Arith List.
Import ListNotations.

Set Implicit Arguments.
Set Warnings "-register-all".

Definition text : Type := list ascii.

(** A string literal as text. *)
Definition str (s : string) : text := list_ascii_of_string s.

(* ================================================================= *)
(** ** Python: exceptions, [int], [range] *)

Module Py.

Inductive exn : Type :=
| ValueError
| IndexError
| AttributeError
| External (msg : string).   (* raised by a library outside the program *)

Inductive result (A : Type) : Type :=
| Ok (a : A)
| Raise (e : exn).

Arguments Ok {A} a.
Arguments Raise {A} e.

Definition bind {A B} (m : result A) (f : A -> result B) : result B :=
  match m with
  | Ok a => f a
  | Raise e => Raise e
  end.

(** [\d] on 8-bit text. *)
Definition is_digit (c : ascii) : bool :=
  let n := nat_of_ascii c in (48 <=? n)%nat && (n <=? 57)%nat.

Definition digit_value (c : ascii) : Z := Z.of_nat (nat_of_ascii c) - 48.

(** Value of a digit string, most significant digit first. *)
Definition digits_value (s : text) : Z :=
  fold_left (fun acc c => 10 * acc + digit_value c)%Z s 0%Z.

(** The interpreter's limit on the number of digits of a decimal string
    that [int] converts ([sys.int_info.default_max_str_digits]). *)
Definition int_max_str_digits : Z := 4300.

(** [int(s)] on the strings the program passes to it: digit strings, which
    are refused with [ValueError] when they have more digits than the limit.
    Python accepts more (signs, surrounding blanks, underscores); those are
    conservatively modelled as [ValueError]. *)
Definition int (s : text) : result Z :=
  match s with
  | [] => Raise ValueError
  | _ :: _ =>
      if forallb is_digit s then
        if (Z.of_nat (length s) <=? int_max_str_digits)%Z
        then Ok (digits_value s)
        else Raise ValueError
      else Raise ValueError
  end.

(** [list(range(a, b))]. *)
Definition range (a b : Z) : list Z :=
  map (fun i => (a + Z.of_nat i)%Z) (seq 0 (Z.to_nat (b - a))).

(** Python floats are IEEE 754 binary64 numbers. *)
Definition float : Type := PrimFloat.float.

(** [min(l)]: the first item is the candidate; a later item replaces it when
    it compares [<] to it. *)
Definition min_from (x : float) (xs : list float) : float :=
  fold_left (fun cur item => if PrimFloat.ltb item cur then item else cur) xs x.

Definition min (l : list float) : result float :=
  match l with
  | [] => Raise ValueError
  | x :: xs => Ok (min_from x xs)
  end.

(** [max(l)]: a later item replaces the candidate when it compares [>]. *)
Definition max_from (x : float) (xs : list float) : float :=
  fold_left (fun cur item => if PrimFloat.ltb cur item then item else cur) xs x.

Definition max (l : list float) : result float :=
  match l with
  | [] => Raise ValueError
  | x :: xs => Ok (max_from x xs)
  end.

(** [l[i]] for [i >= 0] (the program never indexes from the end). *)
Definition index (A : Type) (l : list A) (i : Z) : result A :=
  match nth_error l (Z.to_nat i) with
  | Some a => Ok a
  | None => Raise IndexError
  end.

(** [zip_cons r cols]: pair the items of [r] with the columns [cols], as far
    as both go. *)
Fixpoint zip_cons (A : Type) (r : list A) (cols : list (list A)) : list (list A) :=
  match r, cols with
  | x :: r', c :: cols' => (x :: c) :: zip_cons r' cols'
  | _, _ => []
  end.

(** [list(zip( *rows ))], each tuple as a list: the columns of [rows], as
    many as the shortest row has items; none when there is no row. *)
Fixpoint zip_star (A : Type) (rows : list (list A)) : list (list A) :=
  match rows with
  | [] => []
  | r :: rest =>
      match rest with
      | [] => map (fun x => [x]) r
      | _ :: _ => zip_cons r (zip_star rest)
      end
  end.

(** [a, b, c, d = l]. *)
Definition unpack4 (A : Type) (l : list A) : result (A * A * A * A) :=
  match l with
  | [a; b; c; d] => Ok (a, b, c, d)
  | _ => Raise ValueError
  end.

End Py.

Import Py.

Notation "x <- m ;; k" := (Py.bind m (fun x => k))
  (at level 61, m at next level, right associativity).

(* ================================================================= *)
(** ** The [re] fragment *)

Module Re.

(** Character classes of the two patterns. *)
Inductive cclass : Type :=
| CDigit                 (* \d    *)
| CNot (c : ascii).      (* [^c]  *)

Definition in_class (cl : cclass) (c : ascii) : bool :=
  match cl with
  | CDigit => is_digit c
  | CNot c0 => negb (Ascii.eqb c0 c)
  end.

(** Patterns: literal characters, greedy [cl+], concatenation and capturing
    groups.  No pattern of this fragment matches the empty string. *)
Inductive regex : Type :=
| Chr (c : ascii)
| Plus (cl : cclass)
| Cat (r1 r2 : regex)
| Group (r : regex).

(** [lit s r]: the literal characters of [s], then [r]. *)
Fixpoint lit (s : string) (r : regex) : regex :=
  match s with
  | EmptyString => r
  | String c s' => Cat (Chr c) (lit s' r)
  end.

Section Matcher.
Variable A : Type.

(** Greedy [p*] after the word [w] already consumed: take one more
    character and go on; when that fails, hand over to the continuation
    here (backtracking from the longest run to the shortest). *)
Fixpoint star_greedy (p : ascii -> bool) (w s : text)
         (k : text -> text -> option A) : option A :=
  match s with
  | c :: s' =>
      if p c then
        match star_greedy p (w ++ [c]) s' k with
        | Some x => Some x
        | None => k w s
        end
      else k w s
  | [] => k w s
  end.

(** [rmatch r s caps k]: match [r] at the head of [s]; the continuation
    receives the word consumed, the rest of the text and the groups closed
    so far (in closing order; the patterns here nest no groups, so this is
    the group numbering).  [None] asks the caller to backtrack. *)
Fixpoint rmatch (r : regex) (s : text) (caps : list text)
         (k : text -> text -> list text -> option A) : option A :=
  match r with
  | Chr c =>
      match s with
      | c' :: s' => if Ascii.eqb c c' then k [c'] s' caps else None
      | [] => None
      end
  | Plus cl =>
      match s with
      | c :: s' =>
          if in_class cl c
          then star_greedy (in_class cl) [c] s' (fun w s'' => k w s'' caps)
          else None
      | [] => None
      end
  | Cat r1 r2 =>
      rmatch r1 s caps (fun w1 s1 caps1 =>
      rmatch r2 s1 caps1 (fun w2 s2 caps2 => k (w1 ++ w2) s2 caps2))
  | Group r1 =>
      rmatch r1 s caps (fun w s' caps' => k w s' (caps' ++ [w]))
  end.
End Matcher.

(** A match object: the matched text, what follows it, and the groups. *)
Record match_obj : Type := MatchObj {
  matched : text;
  after : text;
  groups : list text
}.

(** Group [i] of a match, [i >= 1]. *)
Definition group (m : match_obj) (i : nat) : text := nth (i - 1) (groups m) [].

(** Anchored match at the head of the text. *)
Definition match_here (r : regex) (s : text) : option match_obj :=
  rmatch r s [] (fun w s' caps => Some (MatchObj w s' caps)).

(** [re.search]: the match at the leftmost position that has one. *)
Fixpoint search (r : regex) (s : text) : option match_obj :=
  match match_here r s with
  | Some m => Some m
  | None =>
      match s with
      | [] => None
      | _ :: s' => search r s'
      end
  end.

(** [re.findall] for a pattern with several groups: the group tuples of the
    non-overlapping matches, scanning left to right; after a match the scan
    resumes where it ended ([skip] counts the characters of the last match
    still to be passed over). *)
Fixpoint findall_from (r : regex) (skip : nat) (s : text) : list (list text) :=
  match s with
  | [] => []
  | _ :: s' =>
      match skip with
      | S n => findall_from r n s'
      | O =>
          match match_here r s with
          | Some m => groups m :: findall_from r (length (matched m) - 1) s'
          | None => findall_from r 0 s'
          end
      end
  end.

Definition findall (r : regex) (s : text) : list (list text) :=
  findall_from r 0 s.

(** The words a pattern denotes, with the groups they close: the reading of
    a pattern that does not depend on the order in which the matcher tries
    the alternatives. *)
Fixpoint denotes (r : regex) (w : text) (caps caps' : list text) : Prop :=
  match r with
  | Chr c => w = [c] /\ caps' = caps
  | Plus cl => w <> [] /\ forallb (in_class cl) w = true /\ caps' = caps
  | Cat r1 r2 =>
      exists w1 w2 caps1,
        w = w1 ++ w2 /\ denotes r1 w1 caps caps1 /\ denotes r2 w2 caps1 caps'
  | Group r1 => exists caps1, denotes r1 w caps caps1 /\ caps' = caps1 ++ [w]
  end.

End Re.

Import Re.

(* ================================================================= *)
(** ** Citation parsing *)

Module Citation.

(** [r'\(([^,]+\.pdf), Lines \d+-\d+\)'] *)
Definition document_pattern : regex :=
  Cat (Chr "(")
      (Cat (Group (Cat (Plus (CNot ",")) (lit ".pd" (Chr "f"))))
           (lit ", Lines "
                (Cat (Plus CDigit)
                     (Cat (Chr "-") (Cat (Plus CDigit) (Chr ")")))))).

Definition extract_document_name (s : text) : option text :=
  match search document_pattern s with
  | Some m => Some (group m 1)
  | None => None
  end.

(** [r'Lines (\d+)-(\d+)'] *)
Definition lines_pattern : regex :=
  lit "Lines " (Cat (Group (Plus CDigit)) (Cat (Chr "-") (Group (Plus CDigit)))).

(** The inner loop: [result.append((1, line))] for each [line]. *)
Definition append_lines (result : list (Z * Z)) (lines : list Z) : list (Z * Z) :=
  fold_left (fun acc line => acc ++ [(1%Z, line)]) lines result.

(** The outer loop over the group tuples. *)
Fixpoint extract_lines_loop (matches : list (list text)) (result : list (Z * Z))
  : Py.result (list (Z * Z)) :=
  match matches with
  | [] => Ok result
  | m :: rest =>
      start_line <- int (nth 0 m []) ;;
      end_line <- int (nth 1 m []) ;;
      extract_lines_loop rest
        (append_lines result (range start_line (end_line + 1)))
  end.

Definition extract_lines (s : text) : result (list (Z * Z)) :=
  extract_lines_loop (findall lines_pattern s) [].

End Citation.

Import Citation.

(* ================================================================= *)
(** ** pdfminer layouts *)

Module Layout.

(** [bbox]: the tuple [(x0, y0, x1, y1)] of a layout item. *)
Record BoundingBox : Type := BBox {
  x0 : float;
  y0 : float;
  x1 : float;
  y1 : float
}.

(** [list(text_line.bbox)] *)
Definition list_of_bbox (b : BoundingBox) : list float :=
  [x0 b; y0 b; x1 b; y1 b].

(** The children of a text container: text lines, and anything else. *)
Inductive text_item : Type :=
| LTTextLine (bbox : BoundingBox)
| LTOtherItem.

(** The items of a page: text containers, and anything else (figures,
    curves, images). *)
Inductive element : Type :=
| LTTextContainer (items : list text_item)
| LTOtherElement.

Definition page_layout : Type := list element.

(** The loop state of [extract_line_bboxes]. *)
Record scan_state : Type := ScanState {
  line_bboxes : list (list float);
  current_line_number : Z
}.

(** [for text_line in element]: counts the text lines; at the target it
    records the box and leaves this loop ([break]). *)
Fixpoint scan_container (items : list text_item) (target_line_number : Z)
         (st : scan_state) : scan_state :=
  match items with
  | [] => st
  | LTTextLine bbox :: rest =>
      let n := (current_line_number st + 1)%Z in
      if (n =? target_line_number)%Z
      then ScanState (line_bboxes st ++ [list_of_bbox bbox]) n
      else scan_container rest target_line_number (ScanState (line_bboxes st) n)
  | LTOtherItem :: rest => scan_container rest target_line_number st
  end.

(** [for element in page_layout] *)
Fixpoint scan_layout (layout : page_layout) (target_line_number : Z)
         (st : scan_state) : scan_state :=
  match layout with
  | [] => st
  | LTTextContainer items :: rest =>
      scan_layout rest target_line_number
        (scan_container items target_line_number st)
  | LTOtherElement :: rest => scan_layout rest target_line_number st
  end.

Definition extract_line_bboxes (layout : page_layout) (target_line_number : Z)
  : list (list float) :=
  line_bboxes (scan_layout layout target_line_number (ScanState [] 0)).

(** The boxes of the text lines of a container and of a page, in layout
    order: line [N] of the running count is item [N - 1]. *)
Definition container_lines (items : list text_item) : list BoundingBox :=
  flat_map (fun it => match it with LTTextLine b => [b] | LTOtherItem => [] end)
           items.

Definition text_lines (layout : page_layout) : list BoundingBox :=
  flat_map (fun el => match el with
                      | LTTextContainer items => container_lines items
                      | LTOtherElement => []
                      end) layout.

End Layout.

Import Layout.

(* ================================================================= *)
(** ** pypdf objects and the highlight annotation *)

Module Pdf.

(** Python dictionaries keep their keys in insertion order. *)
Definition dict (V : Type) : Type := list (string * V).

Fixpoint dict_get (V : Type) (k : string) (d : dict V) : option V :=
  match d with
  | [] => None
  | (k', v) :: d' => if String.eqb k k' then Some v else dict_get k d'
  end.

(** [d[k] = v] *)
Fixpoint dict_set (V : Type) (k : string) (v : V) (d : dict V) : dict V :=
  match d with
  | [] => [(k, v)]
  | (k', v') :: d' =>
      if String.eqb k k' then (k', v) :: d' else (k', v') :: dict_set k v d'
  end.

Inductive pdf_object : Type :=
| NullObject
| NumberObject (n : Z)
| FloatObject (x : float)
| NameObject (name : string)
| ArrayObject (items : list pdf_object)
| DictionaryObject (entries : list (string * pdf_object)).

(** A page is a dictionary object; [page[k]] is the object itself (pypdf
    resolves references on access). *)
Definition PageObject : Type := dict pdf_object.

(** [color=[1, 1, 0]] *)
Definition default_color : list float := [1%float; 1%float; 0%float].

(** [for bbox in bounds: x1, y1, x2, y2 = bbox; quad_points.extend(...)] *)
Fixpoint quad_points_loop (bounds : list (list float)) (quad_points : list float)
  : result (list float) :=
  match bounds with
  | [] => Ok quad_points
  | bbox :: rest =>
      t <- unpack4 bbox ;;
      let '(x1, y1, x2, y2) := t in
      quad_points_loop rest (quad_points ++ [x1; y2; x2; y2; x1; y1; x2; y1])
  end.

Definition highlight_annotation (bounds : list (list float)) (color : list float)
  : result pdf_object :=
  t <- unpack4 (zip_star bounds) ;;
  let '(x0, y0, x1, y1) := t in
  a <- Py.min x0 ;;
  b <- Py.min y0 ;;
  c <- Py.max x1 ;;
  d <- Py.max y1 ;;
  let rect_bbox := [a; b; c; d] in
  quad_points <- quad_points_loop bounds [] ;;
  Ok (DictionaryObject
        [("/F", NumberObject 4);
         ("/Type", NameObject "/Annot");
         ("/Subtype", NameObject "/Highlight");
         ("/C", ArrayObject (map FloatObject color));
         ("/Rect", ArrayObject (map FloatObject rect_bbox));
         ("/QuadPoints", ArrayObject (map FloatObject quad_points))])%string.

(** [annotation[k]] *)
Definition entry (k : string) (annotation : pdf_object) : option pdf_object :=
  match annotation with
  | DictionaryObject entries => dict_get k entries
  | _ => None
  end.

(** The update of [view_pdf]:
    [if "/Annots" in page: page["/Annots"].append(highlight)
     else: page["/Annots"] = ArrayObject([highlight])];
    [append] exists on arrays only. *)
Definition attach (page : PageObject) (highlight : pdf_object) : result PageObject :=
  match dict_get "/Annots" page with
  | Some (ArrayObject items) =>
      Ok (dict_set "/Annots" (ArrayObject (items ++ [highlight])) page)
  | Some _ => Raise AttributeError
  | None => Ok (dict_set "/Annots" (ArrayObject [highlight]) page)
  end.

(** The annotation list of a page: empty when the page has none, undefined
    when "/Annots" is not an array. *)
Definition annots (page : PageObject) : option (list pdf_object) :=
  match dict_get "/Annots" page with
  | Some (ArrayObject items) => Some items
  | Some _ => None
  | None => Some []
  end.

End Pdf.

Import Pdf.

(* ================================================================= *)
(** ** The highlight endpoint *)

Module App.

Definition bytes : Type := list Byte.byte.

Record http_response : Type := HttpResponse {
  status_code : Z;
  content : bytes
}.

(** The collaborators of a request: the blob store behind [requests.get],
    pypdf's reader and writer, pdfminer's [extract_pages].  Each may raise. *)
Record World : Type := {
  requests_get : text -> result http_response;
  PdfReader_pages : bytes -> result (list PageObject);
  extract_pages : bytes -> result (list page_layout);
  PdfWriter_write : list PageObject -> result bytes
}.

Inductive body : Type :=
| Text (s : string)
| ErrorOccurred (e : exn)        (* f"An error occurred: {str(e)}" *)
| PdfFile (data : bytes).        (* send_file(..., mimetype='application/pdf') *)

Record response : Type := Response {
  resp_body : body;
  resp_status : Z
}.

(** What a request does to the outside. *)
Inductive event : Type :=
| HttpGet (url : text).

(** [f"https://.../hrhbtb-pdf-chunks/{document_name}"] *)
Definition PDF_URL (document_name : option text) : text :=
  str "https://ioclhrchatgpt.blob.core.windows.net/hrhbtb-pdf-chunks/"
  ++ match document_name with
     | Some name => name
     | None => str "None"
     end.

(** The body of [for line_number in lines_to_highlight]. *)
Definition highlight_line (layout : page_layout) (page : PageObject)
           (line_number : Z) : result PageObject :=
  match extract_line_bboxes layout line_number with
  | [] => Ok page
  | (_ :: _) as line_bboxes =>
      highlight <- highlight_annotation line_bboxes default_color ;;
      attach page highlight
  end.

Fixpoint highlight_lines (layout : page_layout) (page : PageObject)
         (lines_to_highlight : list Z) : result PageObject :=
  match lines_to_highlight with
  | [] => Ok page
  | line_number :: rest =>
      page' <- highlight_line layout page line_number ;;
      highlight_lines layout page' rest
  end.

(** [[line_num for (p, line_num) in page_line_pairs if p == page_num]] *)
Definition lines_on_page (page_line_pairs : list (Z * Z)) (page_num : Z) : list Z :=
  map snd (filter (fun pl => (fst pl =? page_num)%Z) page_line_pairs).

(** [for page_num, page in enumerate(reader.pages, start=1)]; [writer] holds
    the pages added so far. *)
Fixpoint process_pages (w : World) (pdf_content : bytes)
         (page_line_pairs : list (Z * Z)) (page_num : Z)
         (pages writer : list PageObject) : result (list PageObject) :=
  match pages with
  | [] => Ok writer
  | page :: rest =>
      layouts <- extract_pages w pdf_content ;;
      layout <- index layouts (page_num - 1) ;;
      page' <- match lines_on_page page_line_pairs page_num with
               | [] => Ok page
               | (_ :: _) as lines_to_highlight =>
                   highlight_lines layout page lines_to_highlight
               end ;;
      process_pages w pdf_content page_line_pairs (page_num + 1) rest
                    (writer ++ [page'])
  end.

(** The [try] block. *)
Definition annotate (w : World) (pdf_content : bytes)
           (page_line_pairs : list (Z * Z)) : result bytes :=
  pages <- PdfReader_pages w pdf_content ;;
  written <- process_pages w pdf_content page_line_pairs 1 pages [] ;;
  PdfWriter_write w written.

(** [view_pdf]: the events it causes, and the response, or the exception
    that leaves the function.  [args_response] is the query parameter
    [response], when given. *)
Definition view_pdf (w : World) (args_response : option text)
  : list event * result response :=
  let chatbot_response :=
    match args_response with Some t => t | None => [] end in
  let document_name := extract_document_name chatbot_response in
  let url := PDF_URL document_name in
  ([HttpGet url],
   fetched <- requests_get w url ;;
   if negb (status_code fetched =? 200)%Z
   then Ok (Response (Text "Unable to fetch the PDF.") 500)
   else
     match chatbot_response with
     | [] => Ok (Response (Text "No chatbot response provided.") 200)
     | _ :: _ =>
         page_line_pairs <- extract_lines chatbot_response ;;
         match page_line_pairs with
         | [] => Ok (Response (Text "No lines to highlight.") 400)
         | _ :: _ =>
             match annotate w (content fetched) page_line_pairs with
             | Ok output => Ok (Response (PdfFile output) 200)
             | Raise e => Ok (Response (ErrorOccurred e) 500)
             end
         end
     end).

End App.

Import App.

(* ================================================================= *)
(** ** Highlight geometry, as specified *)

Module GeometrySpec.

(** The eight coordinates of a box: (x0,y1), (x1,y1), (x0,y0), (x1,y0). *)
Definition quad_points_of (b : BoundingBox) : list float :=
  [x0 b; y1 b; x1 b; y1 b; x0 b; y0 b; x1 b; y0 b].

(** The invariant of a bounding box: [x0 <= x1] and [y0 <= y1]. *)
Definition well_formed (b : BoundingBox) : Prop :=
  PrimFloat.leb (x0 b) (x1 b) = true /\ PrimFloat.leb (y0 b) (y1 b) = true.

(** [m] is a least / greatest item of [l] for the order of floats. *)
Definition is_min (m : float) (l : list float) : Prop :=
  In m l /\ forall x, In x l -> PrimFloat.leb m x = true.

Definition is_max (m : float) (l : list float) : Prop :=
  In m l /\ forall x, In x l -> PrimFloat.leb x m = true.

End GeometrySpec.

Import GeometrySpec.

(* ================================================================= *)
(** ** Sample data *)

Module Samples.

Definition box_a : BoundingBox := (BBox 72 700 300 712)%float.
Definition box_b : BoundingBox := (BBox 72 686 280 698)%float.
Definition box_c : BoundingBox := (BBox 90 650 310.5 662)%float.

(** Two text boxes around a figure; the first text box holds two lines. *)
Definition layout3 : page_layout :=
  [LTTextContainer [LTTextLine box_a; LTOtherItem; LTTextLine box_b];
   LTOtherElement;
   LTTextContainer [LTTextLine box_c]].

Definition note : pdf_object :=
  DictionaryObject [("/Type", NameObject "/Annot"); ("/Subtype", NameObject "/Text")]%string.

Definition page_plain : PageObject :=
  [("/Type", NameObject "/Page"); ("/Rotate", NumberObject 0)]%string.

Definition page_noted : PageObject :=
  [("/Type", NameObject "/Page"); ("/Annots", ArrayObject [note])]%string.

(** A blob store that has no document at all. *)
Definition world_404 : World :=
  {| requests_get := fun _ => Ok (HttpResponse 404 []);
     PdfReader_pages := fun _ => Raise (External "not a PDF");
     extract_pages := fun _ => Raise (External "not a PDF");
     PdfWriter_write := fun _ => Ok [] |}.

(** A blob store that serves one document of two pages, whatever the name. *)
Definition world_doc : World :=
  {| requests_get := fun _ => Ok (HttpResponse 200 [Byte.x25; Byte.x50]);
     PdfReader_pages := fun _ => Ok [page_noted; page_plain];
     extract_pages := fun _ => Ok [layout3; []];
     PdfWriter_write := fun pages => Ok (repeat Byte.x25 (length pages)) |}.

End Samples.

(* ================================================================= *)
(** ** What the patterns denote *)

(** The reading of the two patterns that the specification gives, stated
    without the matcher: it is compared with [Citation] below. *)
Module CitationSpec.

Fixpoint take_while (p : ascii -> bool) (s : text) : text :=
  match s with
  | c :: s' => if p c then c :: take_while p s' else []
  | [] => []
  end.

Fixpoint drop_while (p : ascii -> bool) (s : text) : text :=
  match s with
  | c :: s' => if p c then drop_while p s' else s
  | [] => []
  end.

Fixpoint strip_prefix (pre s : text) : option text :=
  match pre, s with
  | [], _ => Some s
  | c :: pre', c' :: s' => if Ascii.eqb c c' then strip_prefix pre' s' else None
  | _ :: _, [] => None
  end.

(** [s] starts with [Lines <da>-<db>], both numbers taken as far as their
    digits go; the result is [(da, db, rest)]. *)
Definition lines_at (s : text) : option (text * text * text) :=
  match strip_prefix (str "Lines ") s with
  | Some r1 =>
      match take_while is_digit r1, drop_while is_digit r1 with
      | (_ :: _) as da, c :: r2 =>
          if Ascii.eqb "-" c then
            match take_while is_digit r2 with
            | (_ :: _) as db => Some (da, db, drop_while is_digit r2)
            | [] => None
            end
          else None
      | _, _ => None
      end
  | None => None
  end.

(** The ranges [(A, B)] of all the occurrences of [Lines A-B], position by
    position, in order of appearance. *)
Fixpoint lines_occurrences (s : text) : list (Z * Z) :=
  match s with
  | [] => []
  | _ :: s' =>
      match lines_at s with
      | Some (da, db, _) => (digits_value da, digits_value db) :: lines_occurrences s'
      | None => lines_occurrences s'
      end
  end.

(** Characters at which no occurrence can start. *)
Definition not_L (c : ascii) : bool := negb (Ascii.eqb "L" c).

(** A number that [int] converts: at most 4300 digits. *)
Definition short_number (ds : text) : bool :=
  (Z.of_nat (length ds) <=? 4300)%Z.

(** Both numbers of every occurrence of [Lines A-B] are short. *)
Fixpoint lines_within_limit (s : text) : bool :=
  match s with
  | [] => true
  | _ :: s' =>
      match lines_at s with
      | Some (da, db, _) =>
          short_number da && short_number db && lines_within_limit s'
      | None => lines_within_limit s'
      end
  end.

(** One tuple [(1, n)] per [n] of [A..B]. *)
Definition expand (ab : Z * Z) : list (Z * Z) :=
  map (fun n => (1%Z, n)) (range (fst ab) (snd ab + 1)).

Definition not_comma (c : ascii) : bool := negb (Ascii.eqb "," c).

(** [s] is [(<name>, Lines <da>-<db>)<rest>] with [<name>] a non-empty
    comma-free stem followed by [.pdf]. *)
Definition document_at (s name : text) : Prop :=
  exists stem da db rest,
    s = str "(" ++ name ++ str ", Lines " ++ da ++ str "-" ++ db ++ str ")" ++ rest
    /\ name = stem ++ str ".pdf"
    /\ stem <> [] /\ forallb not_comma stem = true
    /\ da <> [] /\ forallb is_digit da = true
    /\ db <> [] /\ forallb is_digit db = true.

End CitationSpec.

Import CitationSpec.

(* ================================================================= *)
(** ** The containment test *)

Module Bounds.

(** [margin=10] *)
Definition default_margin : float := 10%float.

(** [is_within_bbox]: both boxes are unpacked into four names; [>=] is [<=]
    with the sides exchanged. *)
Definition is_within_bbox (bbox constraint_bbox : list float) (margin : float)
  : result bool :=
  t <- unpack4 bbox ;;
  let '(x0, y0, x1, y1) := t in
  c <- unpack4 constraint_bbox ;;
  let '(cx0, cy0, cx1, cy1) := c in
  Ok (PrimFloat.leb cx0 (x0 + margin)
      && PrimFloat.leb cy0 (y0 + margin)
      && PrimFloat.leb (x1 - margin) cx1
      && PrimFloat.leb (y1 - margin) cy1).

(** Plain containment of a box in another. *)
Definition contains (outer inner : BoundingBox) : bool :=
  PrimFloat.leb (x0 outer) (x0 inner)
  && PrimFloat.leb (y0 outer) (y0 inner)
  && PrimFloat.leb (x1 inner) (x1 outer)
  && PrimFloat.leb (y1 inner) (y1 outer).

End Bounds.

Import Bounds.

(* ================================================================= *)
(** ** The line-extraction endpoint *)

Module Api.

(** A parsed JSON body, as [request.get_json()] returns it. *)
Inductive json : Type :=
| JNull
| JBool (b : bool)
| JInt (n : Z)
| JFloat (x : float)
| JString (s : text)
| JArray (items : list json)
| JObject (entries : list (string * json)).

(** The truth value of a parsed JSON value in [if chatbot_response:]. *)
Definition truthy (v : json) : bool :=
  match v with
  | JNull => false
  | JBool b => b
  | JInt n => negb (n =? 0)%Z
  | JFloat x => negb (PrimFloat.eqb x 0%float)
  | JString s => match s with [] => false | _ :: _ => true end
  | JArray items => match items with [] => false | _ :: _ => true end
  | JObject entries => match entries with [] => false | _ :: _ => true end
  end.

(** [jsonify(extracted_lines)]: each tuple becomes an array of two numbers. *)
Definition jsonify_lines (extracted_lines : list (Z * Z)) : json :=
  JArray (map (fun pl => JArray [JInt (fst pl); JInt (snd pl)]) extracted_lines).

(** [process_response] on the parsed body: the JSON answer and its status.
    [data.get] exists on objects only, and [re.findall] refuses what is not
    a string. *)
Definition process_response (data : json) : result (json * Z) :=
  chatbot_response <-
    match data with
    | JObject entries =>
        Ok match dict_get "response" entries with
           | Some v => v
           | None => JNull
           end
    | _ => Raise AttributeError
    end ;;
  if truthy chatbot_response then
    extracted_lines <-
      match chatbot_response with
      | JString s => extract_lines s
      | _ => Raise (External "TypeError: expected string or bytes-like object")
      end ;;
    Ok (jsonify_lines extracted_lines, 200%Z)
  else Ok (JArray [], 400%Z).

End Api.

Import Api.

(* ================================================================= *)
(** ** The pipeline, as specified *)

Module PipelineSpec.

(** The highlight of one text line: its own box as rectangle and as quad. *)
Definition box_highlight (b : BoundingBox) : pdf_object :=
  DictionaryObject
    [("/F", NumberObject 4);
     ("/Type", NameObject "/Annot");
     ("/Subtype", NameObject "/Highlight");
     ("/C", ArrayObject (map FloatObject default_color));
     ("/Rect", ArrayObject (map FloatObject (list_of_bbox b)));
     ("/QuadPoints", ArrayObject (map FloatObject (quad_points_of b)))]%string.

(** The highlights a cited line gives on a page: one when the page has a
    line of this number, none otherwise. *)
Definition line_highlights (layout : page_layout) (line_number : Z)
  : list pdf_object :=
  if (1 <=? line_number)%Z then
    match nth_error (text_lines layout) (Z.to_nat (line_number - 1)) with
    | Some b => [box_highlight b]
    | None => []
    end
  else [].

(** Characters at which no match of the document pattern can start. *)
Definition not_paren (c : ascii) : bool := negb (Ascii.eqb "(" c).

(** The characters that occur in a match of the line pattern after its
    first one. *)
Definition inside_match (c : ascii) : bool :=
  is_digit c || existsb (Ascii.eqb c) (str "ines -").

(** A text at whose start no match of the line pattern can continue or
    end: it is empty, or its first character occurs in no match but as
    the first one. *)
Definition starts_apart (s : text) : Prop :=
  match s with
  | [] => True
  | c :: _ => inside_match c = false
  end.

End PipelineSpec.

Import PipelineSpec.

(* ================================================================= *)
(** ** The program on concrete inputs *)

Example extract_lines_doc :
  extract_lines (str "This can be found on p. 3, Lines 5-7")
  = Ok [(1, 5); (1, 6); (1, 7)]%Z.
Proof. reflexivity. Qed.

(** The pattern is case-sensitive: the text of the docstring's example,
    with [lines] in lower case, has no match. *)
Example extract_lines_lower_case :
  extract_lines (str "This can be found on p. 3, lines 5-7") = Ok [].
Proof. reflexivity. Qed.

Example extract_lines_longest_numbers :
  extract_lines (str "Lines 9-11x, Lines 3-, Lines 007-8")
  = Ok [(1, 9); (1, 10); (1, 11); (1, 7); (1, 8)]%Z.
Proof. reflexivity. Qed.

Example extract_document_name_doc :
  extract_document_name (str "see (doc.pdf, Lines 5-7) and (b.pdf, Lines 1-2)")
  = Some (str "doc.pdf").
Proof. reflexivity. Qed.

(** The name runs from the first parenthesis that starts a match. *)
Example extract_document_name_nested :
  extract_document_name (str "((a b.pdf, Lines 1-2)") = Some (str "(a b.pdf").
Proof. reflexivity. Qed.

Example extract_document_name_with_page :
  extract_document_name (str "(doc.pdf, p. 3, Lines 5-7)") = None.
Proof. reflexivity. Qed.

(** [min] keeps its first candidate unless a later item compares [<] to it:
    next to a NaN, which compares to nothing, the result depends on the
    order of the items.  Bounding boxes hold numbers only. *)
Example min_beside_nan :
  Py.min [nan; 1%float] = Ok nan /\ Py.min [1%float; nan] = Ok 1%float.
Proof. split; reflexivity. Qed.

Example extract_line_bboxes_layout3 :
  extract_line_bboxes Samples.layout3 1 = [list_of_bbox Samples.box_a]
  /\ extract_line_bboxes Samples.layout3 2 = [list_of_bbox Samples.box_b]
  /\ extract_line_bboxes Samples.layout3 0 = [].
Proof. repeat split. Qed.

(** Lines 2 and 3 of the first page are highlighted, each by an annotation
    appended to the page's list; the second page is written as read. *)
Example process_pages_doc :
  exists h2 h3,
    highlight_annotation [list_of_bbox Samples.box_b] default_color = Ok h2
    /\ highlight_annotation [list_of_bbox Samples.box_c] default_color = Ok h3
    /\ process_pages Samples.world_doc [] [(1, 2); (1, 3)]%Z 1
         [Samples.page_noted; Samples.page_plain] []
       = Ok [[("/Type", NameObject "/Page");
              ("/Annots", ArrayObject [Samples.note; h2; h3])]%string;
             Samples.page_plain].
Proof. do 2 eexists. repeat split. Qed.

(* ================================================================= *)
(** ** Facts about the matcher *)

Section Greedy.
Variable A : Type.
Variable p : ascii -> bool.
Variable k : text -> text -> option A.

(** Greedy repetition tries the longest run first. *)
Lemma star_greedy_longest : forall s w x,
  k (w ++ take_while p s) (drop_while p s) = Some x ->
  star_greedy p w s k = Some x.
Proof.
  induction s as [|c s IH]; intros w x H; simpl in *.
  - rewrite app_nil_r in H. exact H.
  - destruct (p c) eqn:E.
    + rewrite (IH (w ++ [c]) x); [reflexivity|].
      rewrite <- app_assoc. exact H.
    + rewrite app_nil_r in H. exact H.
Qed.

(** When what follows cannot start inside the run, backtracking into the
    run never succeeds: only the longest run is handed over. *)
Lemma star_greedy_blocked :
  (forall w c s, p c = true -> k w (c :: s) = None) ->
  forall s w, star_greedy p w s k = k (w ++ take_while p s) (drop_while p s).
Proof.
  intros Hk. induction s as [|c s IH]; intros w; simpl.
  - rewrite app_nil_r. reflexivity.
  - destruct (p c) eqn:E.
    + rewrite IH, <- app_assoc. simpl.
      destruct (k (w ++ c :: take_while p s) (drop_while p s)); [reflexivity|].
      apply Hk. exact E.
    + rewrite app_nil_r. reflexivity.
Qed.

Lemma star_greedy_sound : forall s w x,
  star_greedy p w s k = Some x ->
  exists u v, s = u ++ v /\ forallb p u = true /\ k (w ++ u) v = Some x.
Proof.
  induction s as [|c s IH]; intros w x H; simpl in H.
  - exists [], []. rewrite (app_nil_r w). auto.
  - destruct (p c) eqn:E.
    + destruct (star_greedy p (w ++ [c]) s k) eqn:G.
      * injection H as ->. apply IH in G. destruct G as (u & v & -> & Hu & Hk).
        exists (c :: u), v. rewrite <- app_assoc in Hk. simpl. rewrite E. auto.
      * exists [], (c :: s). rewrite (app_nil_r w). auto.
    + exists [], (c :: s). rewrite (app_nil_r w). auto.
Qed.

Lemma star_greedy_complete : forall u v w x,
  forallb p u = true -> k (w ++ u) v = Some x ->
  exists y, star_greedy p w (u ++ v) k = Some y.
Proof.
  induction u as [|c u IH]; intros v w x Hu Hk; simpl in *.
  - rewrite app_nil_r in Hk. destruct v as [|c v]; simpl.
    + exists x. exact Hk.
    + destruct (p c); [|exists x; exact Hk].
      destruct (star_greedy p (w ++ [c]) v k) as [y|]; [exists y|exists x]; auto.
  - apply andb_true_iff in Hu. destruct Hu as [Hc Hu]. rewrite Hc.
    destruct (IH v (w ++ [c]) x Hu) as [y Hy].
    + rewrite <- app_assoc. exact Hk.
    + rewrite Hy. eauto.
Qed.
End Greedy.

Section MatcherFacts.
Variable A : Type.

Lemma strip_prefix_app : forall pre s s',
  strip_prefix pre s = Some s' <-> s = pre ++ s'.
Proof.
  induction pre as [|c pre IH]; intros s s'; simpl.
  - split; [intros [= ->] | intros ->]; reflexivity.
  - destruct s as [|c' s]; [split; discriminate|].
    destruct (Ascii.eqb c c') eqn:E.
    + apply Ascii.eqb_eq in E. subst c'. rewrite IH.
      split; [intros -> | intros [= ->]]; reflexivity.
    + split; [discriminate|]. intros [= <- _].
      rewrite Ascii.eqb_refl in E. discriminate.
Qed.

(** Literal characters consume exactly themselves. *)
Lemma rmatch_lit : forall (p : string) r s caps
    (k : text -> text -> list text -> option A),
  rmatch (lit p r) s caps k =
  match strip_prefix (str p) s with
  | Some s' => rmatch r s' caps (fun w s2 c => k (str p ++ w) s2 c)
  | None => None
  end.
Proof.
  induction p as [|c p IH]; intros r s caps k.
  - reflexivity.
  - cbn [lit rmatch str list_ascii_of_string strip_prefix].
    destruct s as [|c' s]; [reflexivity|].
    destruct (Ascii.eqb c c') eqn:E; [|reflexivity].
    apply Ascii.eqb_eq in E. subst c'. rewrite IH. reflexivity.
Qed.

Lemma rmatch_cat : forall r1 r2 s caps
    (k : text -> text -> list text -> option A),
  rmatch (Cat r1 r2) s caps k =
  rmatch r1 s caps (fun w1 s1 caps1 =>
  rmatch r2 s1 caps1 (fun w2 s2 caps2 => k (w1 ++ w2) s2 caps2)).
Proof. reflexivity. Qed.

Lemma rmatch_group : forall r s caps
    (k : text -> text -> list text -> option A),
  rmatch (Group r) s caps k =
  rmatch r s caps (fun w s' caps' => k w s' (caps' ++ [w])).
Proof. reflexivity. Qed.

Lemma rmatch_chr : forall c s caps
    (k : text -> text -> list text -> option A),
  rmatch (Chr c) s caps k =
  match s with
  | c' :: s' => if Ascii.eqb c c' then k [c'] s' caps else None
  | [] => None
  end.
Proof. reflexivity. Qed.

Lemma take_while_nil_plus : forall cl s caps
    (k : text -> text -> list text -> option A),
  take_while (in_class cl) s = [] -> rmatch (Plus cl) s caps k = None.
Proof.
  intros cl [|c s] caps k H; simpl in *; [reflexivity|].
  destruct (in_class cl c); [discriminate|reflexivity].
Qed.

(** [cl+] followed by something that cannot start with a [cl] character. *)
Lemma rmatch_plus_blocked : forall cl s caps
    (k : text -> text -> list text -> option A),
  (forall w c s', in_class cl c = true -> k w (c :: s') caps = None) ->
  rmatch (Plus cl) s caps k =
  match take_while (in_class cl) s with
  | [] => None
  | (_ :: _) as w => k w (drop_while (in_class cl) s) caps
  end.
Proof.
  intros cl [|c s] caps k Hk; simpl; [reflexivity|].
  destruct (in_class cl c); [|reflexivity].
  rewrite star_greedy_blocked; [reflexivity|].
  intros w c' s' Hc. apply Hk. exact Hc.
Qed.

(** [cl+] followed by something that accepts the longest run. *)
Lemma rmatch_plus_longest : forall cl s caps
    (k : text -> text -> list text -> option A) x,
  match take_while (in_class cl) s with
  | [] => None
  | (_ :: _) as w => k w (drop_while (in_class cl) s) caps
  end = Some x ->
  rmatch (Plus cl) s caps k = Some x.
Proof.
  intros cl [|c s] caps k x H; simpl in *; [discriminate|].
  destruct (in_class cl c); [|discriminate].
  apply star_greedy_longest. exact H.
Qed.
End MatcherFacts.

Lemma digit_not_dash : forall c, is_digit c = true -> Ascii.eqb "-" c = false.
Proof.
  intros [[] [] [] [] [] [] [] []]; vm_compute; intro H;
    first [reflexivity | discriminate H].
Qed.

Lemma digit_not_L : forall c, is_digit c = true -> Ascii.eqb "L" c = false.
Proof.
  intros [[] [] [] [] [] [] [] []]; vm_compute; intro H;
    first [reflexivity | discriminate H].
Qed.

(** The anchored match of the line pattern is the reading [lines_at]. *)
Lemma match_here_lines : forall s,
  match_here lines_pattern s =
  match lines_at s with
  | Some (da, db, rest) =>
      Some (MatchObj (str "Lines " ++ da ++ str "-" ++ db) rest [da; db])
  | None => None
  end.
Proof.
  intros s. unfold match_here, lines_pattern, lines_at.
  rewrite rmatch_lit.
  destruct (strip_prefix (str "Lines ") s) as [r1|]; [|reflexivity].
  rewrite rmatch_cat, rmatch_group, rmatch_plus_blocked.
  2:{ intros w c s' Hc. rewrite rmatch_cat, rmatch_chr.
      rewrite (digit_not_dash c Hc). reflexivity. }
  change (in_class CDigit) with is_digit.
  destruct (take_while is_digit r1) as [|d da] eqn:Hda; [reflexivity|].
  rewrite rmatch_cat, rmatch_chr.
  destruct (drop_while is_digit r1) as [|c r2]; [reflexivity|].
  destruct (Ascii.eqb "-" c) eqn:Hc; [|reflexivity].
  rewrite rmatch_group.
  destruct (take_while is_digit r2) as [|e db] eqn:Hdb.
  - apply take_while_nil_plus. exact Hdb.
  - apply rmatch_plus_longest. change (in_class CDigit) with is_digit.
    rewrite Hdb.
    apply Ascii.eqb_eq in Hc. subst c. reflexivity.
Qed.

(* ================================================================= *)
(** ** Facts about the readings *)

Section Runs.
Variable p : ascii -> bool.

Lemma take_drop_while : forall s, take_while p s ++ drop_while p s = s.
Proof.
  induction s as [|c s IH]; simpl; [reflexivity|].
  destruct (p c); simpl; [rewrite IH|]; reflexivity.
Qed.

Lemma take_while_all : forall s, forallb p (take_while p s) = true.
Proof.
  induction s as [|c s IH]; simpl; [reflexivity|].
  destruct (p c) eqn:E; simpl; [rewrite E|]; auto.
Qed.

Lemma drop_while_head : forall s c s',
  drop_while p s = c :: s' -> p c = false.
Proof.
  induction s as [|c0 s IH]; simpl; intros c s' H; [discriminate|].
  destruct (p c0) eqn:E; [eauto|]. injection H as <- _. exact E.
Qed.

(** A run followed by a character outside [p] is found as such. *)
Lemma take_while_run : forall u v,
  forallb p u = true ->
  match v with c :: _ => p c = false | [] => True end ->
  take_while p (u ++ v) = u /\ drop_while p (u ++ v) = v.
Proof.
  induction u as [|c u IH]; simpl; intros v Hu Hv.
  - destruct v as [|c v]; simpl; [auto|]. rewrite Hv. auto.
  - apply andb_true_iff in Hu. destruct Hu as [Hc Hu]. rewrite Hc.
    destruct (IH v Hu Hv) as [-> ->]. auto.
Qed.
End Runs.

(** What [lines_at] finds, spelled out on the text. *)
Lemma lines_at_iff : forall s da db rest,
  lines_at s = Some (da, db, rest) <->
  s = str "Lines " ++ da ++ str "-" ++ db ++ rest
  /\ da <> [] /\ forallb is_digit da = true
  /\ db <> [] /\ forallb is_digit db = true
  /\ match rest with c :: _ => is_digit c = false | [] => True end.
Proof.
  intros s da db rest. unfold lines_at. split.
  - destruct (strip_prefix (str "Lines ") s) as [r1|] eqn:Hp; [|discriminate].
    apply strip_prefix_app in Hp. subst s.
    pose proof (take_drop_while is_digit r1) as H1.
    pose proof (take_while_all is_digit r1) as A1.
    destruct (take_while is_digit r1) as [|d ds]; [discriminate|].
    destruct (drop_while is_digit r1) as [|c r2]; [discriminate|].
    destruct (Ascii.eqb "-" c) eqn:Hc; [|discriminate].
    apply Ascii.eqb_eq in Hc. subst c.
    pose proof (take_drop_while is_digit r2) as H2.
    pose proof (take_while_all is_digit r2) as A2.
    pose proof (drop_while_head is_digit r2) as D2.
    destruct (take_while is_digit r2) as [|e es]; [discriminate|].
    intros [= <- <- <-]. subst r1. rewrite <- H2 at 1.
    repeat split; try discriminate; try assumption.
    destruct (drop_while is_digit r2) as [|c r3]; [exact I|]. eapply D2; eauto.
  - intros (-> & Na & Da & Nb & Db & Hr).
    assert (Hp : strip_prefix (str "Lines ")
                   (str "Lines " ++ da ++ str "-" ++ db ++ rest)
                 = Some (da ++ str "-" ++ db ++ rest))
      by (apply strip_prefix_app; reflexivity).
    rewrite Hp.
    destruct (take_while_run is_digit da (str "-" ++ db ++ rest) Da) as [-> ->];
      [reflexivity|].
    destruct da as [|d ds]; [contradiction|].
    cbn [str list_ascii_of_string app]. rewrite Ascii.eqb_refl.
    destruct (take_while_run is_digit db rest Db Hr) as [-> ->].
    destruct db as [|e es]; [contradiction|]. reflexivity.
Qed.

(** No occurrence starts at a character other than [L]. *)
Lemma lines_occurrences_skip : forall u rest,
  forallb not_L u = true ->
  lines_occurrences (u ++ rest) = lines_occurrences rest.
Proof.
  induction u as [|c u IH]; intros rest Hu; [reflexivity|].
  simpl in Hu. apply andb_true_iff in Hu. destruct Hu as [Hc Hu].
  cbn [app lines_occurrences]. unfold lines_at.
  cbn [str list_ascii_of_string strip_prefix].
  unfold not_L in Hc. apply negb_true_iff in Hc. rewrite Hc. auto.
Qed.

Lemma digits_not_L : forall ds,
  forallb is_digit ds = true -> forallb not_L ds = true.
Proof.
  induction ds as [|d ds IH]; simpl; [reflexivity|]. intros H.
  apply andb_true_iff in H. destruct H as [Hd Hds].
  unfold not_L at 1. rewrite (digit_not_L d Hd). simpl. auto.
Qed.

Lemma findall_from_skip : forall r s n,
  findall_from r n s = findall_from r 0 (skipn n s).
Proof.
  induction s as [|c s IH]; intros [|n]; try reflexivity.
  cbn [findall_from skipn]. apply IH.
Qed.

Lemma append_lines_app : forall lines result,
  append_lines result lines = result ++ map (fun n => (1%Z, n)) lines.
Proof.
  unfold append_lines.
  induction lines as [|n lines IH]; intros result; simpl.
  - rewrite app_nil_r. reflexivity.
  - rewrite IH, <- app_assoc. reflexivity.
Qed.

Lemma int_digits : forall ds,
  ds <> [] -> forallb is_digit ds = true ->
  int ds = if short_number ds then Ok (digits_value ds) else Raise ValueError.
Proof.
  intros [|d ds] Hn Hd; [contradiction|]. unfold int. rewrite Hd. reflexivity.
Qed.

(** No occurrence starts at a character other than [L]: such characters do
    not bear on the limit either. *)
Lemma lines_within_limit_skip : forall u rest,
  forallb not_L u = true ->
  lines_within_limit (u ++ rest) = lines_within_limit rest.
Proof.
  induction u as [|c u IH]; intros rest Hu; [reflexivity|].
  cbn [forallb] in Hu. apply andb_true_iff in Hu. destruct Hu as [Hc Hu].
  cbn [app lines_within_limit]. unfold lines_at.
  cbn [str list_ascii_of_string strip_prefix].
  unfold not_L in Hc. apply negb_true_iff in Hc. rewrite Hc. auto.
Qed.

Lemma skipn_length_app : forall (u v : text), skipn (length u) (u ++ v) = v.
Proof. induction u as [|c u IH]; intros v; simpl; auto. Qed.

(** The scan of [re.findall] followed by the two loops of [extract_lines]
    visits exactly the occurrences, in order, and stops with the
    [ValueError] of [int] at the first number that is too long. *)
Lemma extract_lines_loop_findall : forall n s acc,
  (length s <= n)%nat ->
  extract_lines_loop (findall_from lines_pattern 0 s) acc
  = if lines_within_limit s
    then Ok (acc ++ flat_map expand (lines_occurrences s))
    else Raise ValueError.
Proof.
  induction n as [|n IH]; intros [|c s'] acc Hn; simpl in Hn;
    try (cbn; rewrite app_nil_r; reflexivity); [lia|].
  cbn [findall_from lines_occurrences lines_within_limit].
  rewrite match_here_lines.
  destruct (lines_at (c :: s')) as [[[da db] rest]|] eqn:HL.
  - apply lines_at_iff in HL. destruct HL as (Hs & Na & Da & Nb & Db & _).
    set (u := str "ines " ++ da ++ str "-" ++ db).
    assert (Hu : s' = u ++ rest).
    { unfold u. rewrite <- !app_assoc. injection Hs as _ ->. reflexivity. }
    assert (HuL : forallb not_L u = true).
    { unfold u. rewrite !forallb_app, (digits_not_L _ Da), (digits_not_L _ Db).
      reflexivity. }
    cbn [groups matched extract_lines_loop nth].
    rewrite (int_digits Na Da), (int_digits Nb Db).
    destruct (short_number da); [|reflexivity].
    destruct (short_number db); [|reflexivity].
    cbn [bind andb].
    rewrite findall_from_skip.
    replace (length (str "Lines " ++ da ++ str "-" ++ db) - 1)%nat
      with (length u) by (unfold u; cbn; lia).
    rewrite Hu, skipn_length_app, IH.
    2:{ rewrite Hu, length_app in Hn. lia. }
    rewrite lines_occurrences_skip, lines_within_limit_skip by exact HuL.
    destruct (lines_within_limit rest); [|reflexivity].
    rewrite append_lines_app, <- app_assoc. reflexivity.
  - apply IH. lia.
Qed.

(** [extract_lines] on every text. *)
Lemma extract_lines_cases : forall s,
  extract_lines s
  = if lines_within_limit s
    then Ok (flat_map expand (lines_occurrences s))
    else Raise ValueError.
Proof.
  intros s. unfold extract_lines, findall.
  rewrite (extract_lines_loop_findall (n := length s)) by lia. reflexivity.
Qed.

Lemma extract_lines_ok : forall s refs,
  extract_lines s = Ok refs ->
  lines_within_limit s = true /\ refs = flat_map expand (lines_occurrences s).
Proof.
  intros s refs H. rewrite extract_lines_cases in H.
  destruct (lines_within_limit s); [|discriminate].
  injection H as <-. auto.
Qed.

Lemma range_length : forall a b, length (range a b) = Z.to_nat (b - a).
Proof. intros a b. unfold range. rewrite length_map, length_seq. reflexivity. Qed.

Lemma range_nth : forall a b i,
  (i < Z.to_nat (b - a))%nat -> nth i (range a b) 0%Z = (a + Z.of_nat i)%Z.
Proof.
  intros a b i Hi. unfold range.
  rewrite (nth_indep _ 0%Z ((fun k => a + Z.of_nat k) 0%nat)%Z)
    by (rewrite length_map, length_seq; exact Hi).
  rewrite (map_nth (fun k => (a + Z.of_nat k)%Z)), seq_nth by exact Hi.
  reflexivity.
Qed.

Lemma range_In : forall a b n, In n (range a b) <-> (a <= n < b)%Z.
Proof.
  intros a b n. unfold range. rewrite in_map_iff. split.
  - intros (i & <- & Hi). apply in_seq in Hi. lia.
  - intros H. exists (Z.to_nat (n - a)). split; [lia|]. apply in_seq. lia.
Qed.

Lemma expand_In : forall ab p n,
  In (p, n) (expand ab) <-> p = 1%Z /\ (fst ab <= n <= snd ab)%Z.
Proof.
  intros ab p n. unfold expand. rewrite in_map_iff. split.
  - intros (m & [= <- <-] & Hm). apply range_In in Hm. lia.
  - intros [-> H]. exists n. split; [reflexivity|]. apply range_In. lia.
Qed.

(** C1, as stated, fails: [int] refuses a number of more than 4300 digits,
    and [extract_lines] then raises instead of returning references. *)
Lemma extract_lines_long_number :
  extract_lines (str "Lines " ++ repeat "0"%char 4301 ++ str "-0")
  = Raise ValueError.
Proof. vm_compute. reflexivity. Qed.

(** A number of exactly 4300 digits is still converted. *)
Example extract_lines_longest_number :
  extract_lines (str "Lines " ++ repeat "0"%char 4300 ++ str "-0")
  = Ok [(1, 0)]%Z.
Proof. vm_compute. reflexivity. Qed.

(** C1, amended. For every text whose occurrences of [Lines A-B] have
    numbers of at most 4300 digits, [extract_lines] returns the references
    obtained from the occurrences in order of appearance, each occurrence
    contributing the tuples [(1, A)], ..., [(1, B)] in this order (that is
    [B - A + 1] tuples when [A <= B]); every tuple has page 1, and for a text
    with the single occurrence [Lines A-B], [A <= B], the result has exactly
    [B - A + 1] elements, whose line numbers are those of [[A, B]].  For
    every other text [extract_lines] raises [ValueError]. *)
Theorem extract_lines_expands_occurrences : forall s,
  (lines_within_limit s = true ->
   exists refs,
     extract_lines s = Ok refs
     /\ refs = flat_map expand (lines_occurrences s)
     /\ (forall A B, (A <= B)%Z ->
           Z.of_nat (length (expand (A, B))) = (B - A + 1)%Z
           /\ forall i, (i < length (expand (A, B)))%nat ->
                nth i (expand (A, B)) (0, 0)%Z = (1, A + Z.of_nat i)%Z)
     /\ (forall p n, In (p, n) refs -> p = 1%Z)
     /\ (forall A B, lines_occurrences s = [(A, B)] -> (A <= B)%Z ->
           Z.of_nat (length refs) = (B - A + 1)%Z
           /\ forall n, In (1%Z, n) refs <-> (A <= n <= B)%Z))
  /\ (lines_within_limit s = false -> extract_lines s = Raise ValueError).
Proof.
  intros s. split; [|intros Hl; rewrite extract_lines_cases, Hl; reflexivity].
  intros Hl. exists (flat_map expand (lines_occurrences s)).
  assert (Hlen : forall A B, (A <= B)%Z ->
            Z.of_nat (length (expand (A, B))) = (B - A + 1)%Z).
  { intros A B H. unfold expand. rewrite length_map, range_length. simpl. lia. }
  split; [|split; [reflexivity|split; [|split]]].
  - rewrite extract_lines_cases, Hl. reflexivity.
  - intros A B H. split; [apply Hlen; exact H|].
    intros i Hi. unfold expand in *. rewrite length_map, range_length in Hi.
    rewrite (nth_indep _ (0, 0)%Z ((fun n => (1, n)) 0)%Z)
      by (rewrite length_map, range_length; exact Hi).
    rewrite (map_nth (fun n => (1, n)%Z)), range_nth by exact Hi. reflexivity.
  - intros p n H. apply in_flat_map in H. destruct H as (ab & _ & H).
    apply expand_In in H. tauto.
  - intros A B Ho H. rewrite Ho. cbn [flat_map]. rewrite app_nil_r. split.
    + apply Hlen. exact H.
    + intros n. rewrite expand_In. simpl. tauto.
Qed.

Lemma extract_lines_expands_occurrences_witness :
  exists refs,
    extract_lines (str "see (doc.pdf, Lines 5-7)") = Ok refs
    /\ Z.of_nat (length refs) = 3%Z
    /\ forall n, In (1%Z, n) refs <-> (5 <= n <= 7)%Z.
Proof.
  destruct (extract_lines_expands_occurrences (str "see (doc.pdf, Lines 5-7)"))
    as [Hok _].
  destruct (Hok eq_refl) as (refs & Hr & _ & _ & _ & H).
  exists refs. split; [exact Hr|].
  apply (H 5%Z 7%Z); [reflexivity | lia].
Defined.

(** C10, as stated, fails: a reversed range whose first number has more
    than 4300 digits makes [extract_lines] raise. *)
Lemma extract_lines_reversed_long_number :
  extract_lines (str "Lines 1" ++ repeat "0"%char 4300 ++ str "-5")
  = Raise ValueError.
Proof. vm_compute. reflexivity. Qed.

(** C10, amended. In a text whose occurrences have numbers of at most 4300
    digits, an occurrence [Lines A-B] with [A > B] expands to nothing:
    [extract_lines] does not raise and does not reject the text, and returns
    the expansions of the other occurrences, in order of appearance. *)
Theorem extract_lines_reversed_range : forall s before A B after,
  lines_within_limit s = true ->
  lines_occurrences s = before ++ (A, B) :: after ->
  (A > B)%Z ->
  expand (A, B) = []
  /\ extract_lines s = Ok (flat_map expand before ++ flat_map expand after).
Proof.
  intros s before A B after Hl Ho H.
  assert (He : expand (A, B) = []).
  { unfold expand, range. simpl.
    replace (Z.to_nat (B + 1 - A)) with 0%nat by lia. reflexivity. }
  split; [exact He|].
  rewrite extract_lines_cases, Hl.
  rewrite Ho, flat_map_app. cbn [flat_map app]. rewrite He. reflexivity.
Qed.

Lemma extract_lines_reversed_range_witness :
  expand (7, 5)%Z = []
  /\ extract_lines (str "Lines 1-2, Lines 7-5 and Lines 9-9")
     = Ok [(1, 1); (1, 2); (1, 9)]%Z.
Proof.
  apply (extract_lines_reversed_range
           (str "Lines 1-2, Lines 7-5 and Lines 9-9")
           [(1, 2)%Z] [(9, 9)%Z]); [reflexivity | reflexivity | lia].
Defined.

(* ================================================================= *)
(** ** The matcher against the denotation of patterns *)

(** What the matcher finds is a word of the pattern. *)
Lemma rmatch_sound : forall (A : Type) r s caps
    (k : text -> text -> list text -> option A) x,
  rmatch r s caps k = Some x ->
  exists w s' caps',
    s = w ++ s' /\ denotes r w caps caps' /\ k w s' caps' = Some x.
Proof.
  intros A r. induction r as [c|cl|r1 IH1 r2 IH2|r IH]; intros s caps k x H.
  - rewrite rmatch_chr in H. destruct s as [|c' s]; [discriminate|].
    destruct (Ascii.eqb c c') eqn:E; [|discriminate].
    apply Ascii.eqb_eq in E. subst c'.
    exists [c], s, caps. simpl. auto.
  - simpl in H. destruct s as [|c s]; [discriminate|].
    destruct (in_class cl c) eqn:E; [|discriminate].
    apply star_greedy_sound in H. destruct H as (u & v & -> & Hu & Hk).
    exists (c :: u), v, caps. simpl. rewrite E, Hu.
    repeat split; [discriminate|exact Hk].
  - rewrite rmatch_cat in H. apply IH1 in H.
    destruct H as (w1 & s1 & caps1 & -> & D1 & H).
    apply IH2 in H. destruct H as (w2 & s2 & caps2 & -> & D2 & H).
    exists (w1 ++ w2), s2, caps2. rewrite <- app_assoc.
    repeat split; [|exact H]. simpl. eauto 6.
  - rewrite rmatch_group in H. apply IH in H.
    destruct H as (w & s' & caps' & -> & D & H).
    exists w, s', (caps' ++ [w]). repeat split; [|exact H]. simpl. eauto.
Qed.

(** The matcher finds a match wherever the pattern has a word that the
    continuation accepts. *)
Lemma rmatch_complete : forall (A : Type) r w s' caps caps'
    (k : text -> text -> list text -> option A) x,
  denotes r w caps caps' -> k w s' caps' = Some x ->
  exists y, rmatch r (w ++ s') caps k = Some y.
Proof.
  intros A r. induction r as [c|cl|r1 IH1 r2 IH2|r IH];
    intros w s' caps caps' k x D H; simpl in D.
  - destruct D as [-> ->]. simpl. rewrite Ascii.eqb_refl. eauto.
  - destruct D as (Hn & Hw & ->). destruct w as [|c u]; [contradiction|].
    simpl in Hw. apply andb_true_iff in Hw. destruct Hw as [Hc Hu].
    simpl. rewrite Hc.
    eapply star_greedy_complete with (k := fun w s'' => k w s'' caps); eauto.
  - destruct D as (w1 & w2 & caps1 & -> & D1 & D2).
    rewrite rmatch_cat, <- app_assoc.
    destruct (IH2 w2 s' caps1 caps'
                (fun w2 s2 caps2 => k (w1 ++ w2) s2 caps2) x D2 H) as [y Hy].
    eapply IH1; [exact D1 | exact Hy].
  - destruct D as (caps1 & D & ->). rewrite rmatch_group.
    eapply IH; [exact D | exact H].
Qed.

Lemma match_here_sound : forall r s m,
  match_here r s = Some m ->
  s = matched m ++ after m /\ denotes r (matched m) [] (groups m).
Proof.
  intros r s m H. apply rmatch_sound in H.
  destruct H as (w & s' & caps & -> & D & [= <-]). simpl. auto.
Qed.

Lemma match_here_complete : forall r w s' caps,
  denotes r w [] caps -> exists m, match_here r (w ++ s') = Some m.
Proof.
  intros r w s' caps D.
  eapply rmatch_complete with (k := fun w s' caps => Some (MatchObj w s' caps));
    [exact D | reflexivity].
Qed.

(** [search] returns a match at the leftmost position that has one. *)
Lemma search_some : forall r s m,
  search r s = Some m ->
  exists pre,
    s = pre ++ matched m ++ after m
    /\ denotes r (matched m) [] (groups m)
    /\ forall pre' w rest caps,
         s = pre' ++ w ++ rest -> (length pre' < length pre)%nat ->
         ~ denotes r w [] caps.
Proof.
  intros r. induction s as [|c s IH]; intros m H; simpl in H.
  - destruct (match_here r []) as [m'|] eqn:E; [|discriminate].
    injection H as ->. apply match_here_sound in E. destruct E as [E D].
    exists []. repeat split; auto. simpl. intros; lia.
  - destruct (match_here r (c :: s)) as [m'|] eqn:E.
    + injection H as ->. apply match_here_sound in E. destruct E as [E D].
      exists []. repeat split; auto. simpl. intros; lia.
    + apply IH in H. destruct H as (pre & -> & D & Hleft).
      exists (c :: pre). repeat split; auto.
      intros [|c' pre'] w rest caps Hs Hlen Dw; simpl in *.
      * destruct (@match_here_complete r w rest caps Dw) as [m' Hm'].
        rewrite <- Hs in Hm'. congruence.
      * injection Hs as _ Hs. apply (Hleft pre' w rest caps Hs); [lia|exact Dw].
Qed.

Lemma search_none : forall r s,
  search r s = None ->
  forall pre w rest caps, s = pre ++ w ++ rest -> ~ denotes r w [] caps.
Proof.
  intros r. induction s as [|c s IH]; intros H pre w rest caps Hs Dw;
    simpl in H.
  - destruct (match_here r []) as [m'|] eqn:E; [discriminate|].
    destruct pre; [|discriminate]. simpl in Hs.
    destruct (@match_here_complete r w rest caps Dw) as [m' Hm'].
    rewrite <- Hs in Hm'. congruence.
  - destruct (match_here r (c :: s)) as [m'|] eqn:E; [discriminate|].
    destruct pre as [|c' pre]; simpl in Hs.
    + destruct (@match_here_complete r w rest caps Dw) as [m' Hm'].
      rewrite <- Hs in Hm'. congruence.
    + injection Hs as _ Hs. exact (IH H pre w rest caps Hs Dw).
Qed.

Lemma denotes_lit : forall p r w caps caps',
  denotes (lit p r) w caps caps' <->
  exists w', w = str p ++ w' /\ denotes r w' caps caps'.
Proof.
  induction p as [|c p IH]; intros r w caps caps'.
  - simpl. split; [eauto|]. intros (w' & -> & D). exact D.
  - cbn [lit denotes]. split.
    + intros (w1 & w2 & caps1 & -> & [-> ->] & D).
      apply IH in D. destruct D as (w' & -> & D). exists w'. auto.
    + intros (w' & -> & D). exists [c], (str p ++ w'), caps.
      repeat split. apply IH. eauto.
Qed.

(** The words of the document pattern, spelled out. *)
Lemma document_denotes_iff : forall w caps,
  denotes document_pattern w [] caps <->
  exists stem da db,
    w = str "(" ++ (stem ++ str ".pdf") ++ str ", Lines "
          ++ da ++ str "-" ++ db ++ str ")"
    /\ caps = [stem ++ str ".pdf"]
    /\ stem <> [] /\ forallb not_comma stem = true
    /\ da <> [] /\ forallb is_digit da = true
    /\ db <> [] /\ forallb is_digit db = true.
Proof.
  intros w caps. unfold document_pattern. cbn [denotes]. split.
  - intros (w1 & w2 & c1 & -> & [-> ->] & wg & w3 & c2 & -> & Dg & D3).
    destruct Dg as (c3 & (stem & w4 & c4 & -> & (Ns & Hs & ->) & D4) & ->).
    apply denotes_lit in D4. destruct D4 as (w5 & -> & -> & ->).
    apply denotes_lit in D3.
    destruct D3 as (w6 & -> & da & w7 & c5 & -> & (Na & Ha & ->) & D7).
    cbn [denotes] in D7.
    destruct D7 as (w8 & w9 & c6 & -> & [-> ->] & db & w10 & c7 & -> & (Nb & Hb & ->) & -> & ->).
    exists stem, da, db. repeat split; auto.
  - intros (stem & da & db & -> & -> & Ns & Hs & Na & Ha & Nb & Hb).
    exists (str "("), ((stem ++ str ".pdf") ++ str ", Lines "
          ++ da ++ str "-" ++ db ++ str ")"), []. repeat split.
    exists (stem ++ str ".pdf"), (str ", Lines " ++ da ++ str "-" ++ db ++ str ")"),
      [stem ++ str ".pdf"]. repeat split.
    + exists []. split; [|reflexivity].
      exists stem, (str ".pdf"), []. repeat split; auto.
      apply denotes_lit. exists (str "f"). repeat split.
    + apply denotes_lit. eexists. split; [reflexivity|].
      exists da, (str "-" ++ db ++ str ")"), [stem ++ str ".pdf"]. repeat split; auto.
      exists (str "-"), (db ++ str ")"), [stem ++ str ".pdf"]. repeat split.
      exists db, (str ")"), [stem ++ str ".pdf"]. repeat split; auto.
Qed.

(** [document_at] is the denotation of the document pattern at the head of
    the text, with the name as group 1. *)
Lemma document_at_denotes : forall s name,
  document_at s name <->
  exists w rest caps,
    s = w ++ rest /\ denotes document_pattern w [] caps /\ nth 0 caps [] = name.
Proof.
  intros s name. split.
  - intros (stem & da & db & rest & -> & -> & H).
    exists (str "(" ++ (stem ++ str ".pdf") ++ str ", Lines "
              ++ da ++ str "-" ++ db ++ str ")"), rest, [stem ++ str ".pdf"].
    split; [|split; [|reflexivity]].
    + rewrite <- !app_assoc. reflexivity.
    + apply document_denotes_iff. exists stem, da, db. tauto.
  - intros (w & rest & caps & -> & D & <-).
    apply document_denotes_iff in D.
    destruct D as (stem & da & db & -> & -> & H).
    exists stem, da, db, rest. cbn [nth]. split; [|split; [reflexivity|tauto]].
    rewrite <- !app_assoc. reflexivity.
Qed.

Lemma pdf_suffix_no_comma : forall stem,
  forallb not_comma stem = true -> forallb not_comma (stem ++ str ".pdf") = true.
Proof. intros stem H. rewrite forallb_app, H. reflexivity. Qed.

(** At a given position the name is determined: it runs to the first comma. *)
Lemma document_at_name : forall s name,
  document_at s name -> name = take_while not_comma (tl s).
Proof.
  intros s name (stem & da & db & rest & -> & -> & _ & Hs & _).
  cbn [str list_ascii_of_string app tl].
  symmetry. apply take_while_run.
  - apply pdf_suffix_no_comma. exact Hs.
  - reflexivity.
Qed.

Lemma app_same_length : forall (a b x y : text),
  length a = length b -> a ++ x = b ++ y -> a = b /\ x = y.
Proof.
  induction a as [|c a IH]; intros [|d b] x y Hl H; simpl in *;
    try discriminate; [auto|].
  injection H as -> H. injection Hl as Hl.
  destruct (IH b x y Hl H) as [-> ->]. auto.
Qed.

(** C9. For every text, [extract_document_name] returns the name of the first
    (leftmost) substring of the form [(<name>.pdf, Lines <start>-<end>)], and
    none exactly when the text has no such substring; in particular a text
    without [, Lines ] after the name yields none. *)
Theorem extract_document_name_first_match : forall s,
  (forall name,
     extract_document_name s = Some name <->
     exists pre suf,
       s = pre ++ suf /\ document_at suf name
       /\ forall pre' suf' name',
            s = pre' ++ suf' -> (length pre' < length pre)%nat ->
            ~ document_at suf' name')
  /\ (extract_document_name s = None <->
      forall pre suf name, s = pre ++ suf -> ~ document_at suf name)
  /\ ((forall pre post, s <> pre ++ str ", Lines " ++ post) ->
      extract_document_name s = None).
Proof.
  intros s.
  assert (Hnone : extract_document_name s = None <->
      forall pre suf name, s = pre ++ suf -> ~ document_at suf name).
  { unfold extract_document_name. split.
    - destruct (search document_pattern s) as [m|] eqn:E; [discriminate|].
      intros _ pre suf name Hs Hd. apply document_at_denotes in Hd.
      destruct Hd as (w & rest & caps & -> & D & _).
      exact (@search_none _ _ E pre w rest caps Hs D).
    - intros H. destruct (search document_pattern s) as [m|] eqn:E; [|reflexivity].
      apply search_some in E. destruct E as (pre & Hs & D & _).
      exfalso. apply (H pre (matched m ++ after m) (nth 0 (groups m) []) Hs).
      apply document_at_denotes. eauto 6. }
  split; [|split; [exact Hnone|]].
  - intros name. unfold extract_document_name. split.
    + destruct (search document_pattern s) as [m|] eqn:E; [|discriminate].
      intros [= <-]. apply search_some in E. destruct E as (pre & Hs & D & Hleft).
      exists pre, (matched m ++ after m). split; [exact Hs|]. split.
      * apply document_at_denotes. exists (matched m), (after m), (groups m).
        unfold group. auto.
      * intros pre' suf' name' Hs' Hlen Hd. apply document_at_denotes in Hd.
        destruct Hd as (w & rest & caps & -> & Dw & _).
        exact (Hleft pre' w rest caps Hs' Hlen Dw).
    + intros (pre & suf & Hs & Hd & Hleft).
      destruct (search document_pattern s) as [m|] eqn:E.
      * apply search_some in E. destruct E as (pre0 & Hs0 & D0 & Hleft0).
        assert (Hd0 : document_at (matched m ++ after m) (group m 1)).
        { apply document_at_denotes. exists (matched m), (after m), (groups m).
          unfold group. auto. }
        assert (Hl : length pre0 = length pre).
        { destruct (Nat.lt_trichotomy (length pre0) (length pre)) as [Hlt|[Heq|Hgt]];
            [|exact Heq|].
          - exfalso. exact (Hleft pre0 _ _ Hs0 Hlt Hd0).
          - exfalso. apply document_at_denotes in Hd.
            destruct Hd as (w & rest & caps & -> & Dw & _).
            exact (Hleft0 pre w rest caps Hs Hgt Dw). }
        rewrite Hs in Hs0. symmetry in Hl.
        destruct (@app_same_length _ _ _ _ Hl Hs0) as [_ Hsuf].
        rewrite (document_at_name Hd0), (document_at_name Hd), Hsuf. reflexivity.
      * exfalso. apply document_at_denotes in Hd.
        destruct Hd as (w & rest & caps & -> & Dw & _).
        exact (@search_none _ _ E pre w rest caps Hs Dw).
  - intros H. apply Hnone. intros pre suf name Hs Hd.
    destruct Hd as (stem & da & db & rest & -> & _).
    apply (H (pre ++ str "(" ++ name) (da ++ str "-" ++ db ++ str ")" ++ rest)).
    rewrite Hs, <- !app_assoc. reflexivity.
Qed.

Lemma extract_document_name_first_match_witness :
  extract_document_name (str "see (doc.pdf)") = None.
Proof.
  apply (extract_document_name_first_match (str "see (doc.pdf)")).
  intros pre post H.
  assert (Hc : forallb not_comma (str "see (doc.pdf)") = true) by reflexivity.
  rewrite H, forallb_app in Hc. apply andb_true_iff in Hc.
  destruct Hc as [_ Hc]. discriminate Hc.
Defined.

(* ================================================================= *)
(** ** Locating a line *)

(** Once the counter has reached the target nothing is recorded any more. *)
Lemma scan_container_past : forall items N st,
  (N <= current_line_number st)%Z ->
  line_bboxes (scan_container items N st) = line_bboxes st
  /\ (N <= current_line_number (scan_container items N st))%Z.
Proof.
  induction items as [|[b|] items IH]; intros N st H; simpl; auto.
  destruct (current_line_number st + 1 =? N)%Z eqn:E; [lia|].
  destruct (IH N (ScanState (line_bboxes st) (current_line_number st + 1))) as [H1 H2];
    simpl; [lia|auto].
Qed.

Lemma scan_layout_past : forall layout N st,
  (N <= current_line_number st)%Z ->
  line_bboxes (scan_layout layout N st) = line_bboxes st.
Proof.
  induction layout as [|[items|] layout IH]; intros N st H; simpl; auto.
  destruct (scan_container_past items st H) as [H1 H2].
  rewrite IH; auto.
Qed.

(** Before the target, a container either holds the target line, which is
    recorded, or all its lines are counted. *)
Lemma scan_container_before : forall items N st,
  (current_line_number st < N)%Z ->
  scan_container items N st =
  match nth_error (container_lines items)
                  (Z.to_nat (N - current_line_number st - 1)) with
  | Some b => ScanState (line_bboxes st ++ [list_of_bbox b]) N
  | None => ScanState (line_bboxes st)
              (current_line_number st + Z.of_nat (length (container_lines items)))
  end.
Proof.
  induction items as [|[b|] items IH]; intros N [acc cur] H; simpl in *.
  - rewrite nth_error_nil, Z.add_0_r. reflexivity.
  - destruct (cur + 1 =? N)%Z eqn:E.
    + apply Z.eqb_eq in E. subst N.
      replace (Z.to_nat (cur + 1 - cur - 1)) with 0%nat by lia. reflexivity.
    + apply Z.eqb_neq in E. rewrite IH by (simpl; lia). simpl.
      replace (Z.to_nat (N - cur - 1)) with (S (Z.to_nat (N - (cur + 1) - 1))) by lia.
      simpl. destruct (nth_error _ _); [reflexivity|]. f_equal. lia.
  - apply IH. exact H.
Qed.

Lemma scan_layout_before : forall layout N st,
  (current_line_number st < N)%Z ->
  line_bboxes (scan_layout layout N st) =
  match nth_error (text_lines layout)
                  (Z.to_nat (N - current_line_number st - 1)) with
  | Some b => line_bboxes st ++ [list_of_bbox b]
  | None => line_bboxes st
  end.
Proof.
  induction layout as [|[items|] layout IH]; intros N st H.
  - simpl. rewrite nth_error_nil. reflexivity.
  - cbn [scan_layout text_lines flat_map].
    rewrite (scan_container_before items st H).
    destruct (nth_error (container_lines items)
                (Z.to_nat (N - current_line_number st - 1))) as [b|] eqn:E.
    + rewrite scan_layout_past by (simpl; lia). simpl.
      rewrite nth_error_app1 by (apply nth_error_Some; congruence).
      rewrite E. reflexivity.
    + apply nth_error_None in E.
      rewrite IH by (simpl; lia). simpl.
      rewrite nth_error_app2 by exact E.
      replace (Z.to_nat (N - (current_line_number st
                              + Z.of_nat (length (container_lines items))) - 1))
        with (Z.to_nat (N - current_line_number st - 1)
              - length (container_lines items))%nat by lia.
      reflexivity.
  - cbn [scan_layout text_lines flat_map app]. apply IH. exact H.
Qed.

(** Beyond the last line, and at or below zero, nothing is found. *)
Lemma extract_line_bboxes_none : forall layout N,
  (N <= 0 \/ Z.of_nat (length (text_lines layout)) < N)%Z ->
  extract_line_bboxes layout N = [].
Proof.
  intros layout N [H|H]; unfold extract_line_bboxes.
  - apply scan_layout_past. simpl. exact H.
  - rewrite scan_layout_before by (simpl; lia). simpl.
    rewrite Z.sub_0_r.
    replace (nth_error (text_lines layout) (Z.to_nat (N - 1)))
      with (@None BoundingBox); [reflexivity|].
    symmetry. apply nth_error_None. lia.
Qed.

(** C3. With [K] the number of text lines of the page, counted through all
    its text containers in layout order, [extract_line_bboxes layout N] is the
    one-element sequence holding the box of the [N]-th line when
    [1 <= N <= K], and empty when [N <= 0] or [N > K] (so also when the page
    has no text line). *)
Theorem extract_line_bboxes_nth_line : forall layout N,
  let K := Z.of_nat (length (text_lines layout)) in
  ((1 <= N <= K)%Z ->
     exists b, nth_error (text_lines layout) (Z.to_nat (N - 1)) = Some b
               /\ extract_line_bboxes layout N = [list_of_bbox b])
  /\ ((N <= 0 \/ K < N)%Z -> extract_line_bboxes layout N = []).
Proof.
  intros layout N K. split.
  - intros H. unfold extract_line_bboxes.
    rewrite scan_layout_before by (simpl; lia). simpl.
    rewrite Z.sub_0_r.
    destruct (nth_error (text_lines layout) (Z.to_nat (N - 1))) as [b|] eqn:E.
    + exists b. auto.
    + apply nth_error_None in E. unfold K in H. lia.
  - intros H. apply extract_line_bboxes_none. exact H.
Qed.

Lemma extract_line_bboxes_nth_line_witness :
  extract_line_bboxes Samples.layout3 3 = [list_of_bbox Samples.box_c]
  /\ extract_line_bboxes Samples.layout3 4 = [].
Proof.
  destruct (extract_line_bboxes_nth_line Samples.layout3 3) as [H3 _].
  destruct (extract_line_bboxes_nth_line Samples.layout3 4) as [_ H4].
  split.
  - destruct H3 as (b & Hb & H); [simpl; lia|].
    simpl in Hb. injection Hb as <-. exact H.
  - apply H4. simpl. lia.
Defined.

(* ================================================================= *)
(** ** Building the annotation *)

Lemma zip_star_boxes : forall b boxes,
  zip_star (map list_of_bbox (b :: boxes))
  = [map x0 (b :: boxes); map y0 (b :: boxes);
     map x1 (b :: boxes); map y1 (b :: boxes)].
Proof.
  intros b boxes. revert b.
  induction boxes as [|b' boxes IH]; intros b; [reflexivity|].
  change (zip_star (map list_of_bbox (b :: b' :: boxes)))
    with (zip_cons (list_of_bbox b) (zip_star (map list_of_bbox (b' :: boxes)))).
  rewrite IH. reflexivity.
Qed.

Lemma quad_points_loop_boxes : forall boxes acc,
  quad_points_loop (map list_of_bbox boxes) acc
  = Ok (acc ++ flat_map quad_points_of boxes).
Proof.
  induction boxes as [|b boxes IH]; intros acc; simpl.
  - rewrite app_nil_r. reflexivity.
  - rewrite IH, <- app_assoc. reflexivity.
Qed.

(** The annotation built from a non-empty sequence of boxes. *)
Lemma highlight_annotation_boxes : forall b boxes color,
  highlight_annotation (map list_of_bbox (b :: boxes)) color
  = Ok (DictionaryObject
          [("/F", NumberObject 4);
           ("/Type", NameObject "/Annot");
           ("/Subtype", NameObject "/Highlight");
           ("/C", ArrayObject (map FloatObject color));
           ("/Rect", ArrayObject (map FloatObject
              [min_from (x0 b) (map x0 boxes); min_from (y0 b) (map y0 boxes);
               max_from (x1 b) (map x1 boxes); max_from (y1 b) (map y1 boxes)]));
           ("/QuadPoints", ArrayObject (map FloatObject
              (flat_map quad_points_of (b :: boxes))))])%string.
Proof.
  intros b boxes color. unfold highlight_annotation.
  rewrite zip_star_boxes, quad_points_loop_boxes. reflexivity.
Qed.

(** C5. For every non-empty sequence of boxes the /QuadPoints of the
    annotation are, box after box in input order, the eight coordinates
    (x0,y1), (x1,y1), (x0,y0), (x1,y0); there are 8 per box. *)
Theorem highlight_annotation_quad_points : forall boxes color,
  boxes <> [] ->
  exists annotation,
    highlight_annotation (map list_of_bbox boxes) color = Ok annotation
    /\ entry "/QuadPoints" annotation
       = Some (ArrayObject (map FloatObject (flat_map quad_points_of boxes)))
    /\ length (flat_map quad_points_of boxes) = (8 * length boxes)%nat.
Proof.
  intros [|b boxes] color Hne; [contradiction|].
  rewrite highlight_annotation_boxes. eexists. split; [reflexivity|].
  split; [reflexivity|].
  generalize (b :: boxes). intros l.
  induction l as [|b' l IH]; simpl; [reflexivity|]. rewrite IH. lia.
Qed.

Lemma highlight_annotation_quad_points_witness :
  exists annotation,
    highlight_annotation
      (map list_of_bbox [Samples.box_a; Samples.box_b]) default_color
    = Ok annotation
    /\ entry "/QuadPoints" annotation
       = Some (ArrayObject (map FloatObject
           [72; 712; 300; 712; 72; 700; 300; 700;
            72; 698; 280; 698; 72; 686; 280; 686]%float)).
Proof.
  destruct (@highlight_annotation_quad_points
              [Samples.box_a; Samples.box_b] default_color)
    as (annotation & H1 & H2 & _); [discriminate|].
  exists annotation. split; [exact H1 | exact H2].
Defined.

(** The locator returns nothing or one box of four coordinates. *)
Lemma extract_line_bboxes_cases : forall layout N,
  extract_line_bboxes layout N = []
  \/ exists b, extract_line_bboxes layout N = [list_of_bbox b].
Proof.
  intros layout N. unfold extract_line_bboxes.
  destruct (Z_lt_le_dec 0 N) as [H|H].
  - rewrite scan_layout_before by exact H. simpl.
    destruct (nth_error (text_lines layout) (Z.to_nat (N - 0 - 1))) as [b|]; eauto.
  - left. apply scan_layout_past. exact H.
Qed.

(** C6. [highlight_annotation] raises [ValueError] on an empty sequence of
    boxes, and the pipeline does not get there: an empty result of the
    locator leaves the page as it is, so that highlighting a line never
    raises this error. *)
Theorem highlight_annotation_empty : forall color layout page line_number,
  highlight_annotation [] color = Raise ValueError
  /\ (extract_line_bboxes layout line_number = [] ->
      highlight_line layout page line_number = Ok page)
  /\ highlight_line layout page line_number <> Raise ValueError.
Proof.
  intros color layout page n. split; [reflexivity|]. unfold highlight_line.
  split.
  - intros ->. reflexivity.
  - destruct (extract_line_bboxes_cases layout n) as [->|[b ->]]; [discriminate|].
    change [list_of_bbox b] with (map list_of_bbox [b]).
    rewrite highlight_annotation_boxes. cbn [bind]. unfold attach.
    destruct (dict_get "/Annots" page) as [[| | | | |]|]; discriminate.
Qed.

Lemma highlight_annotation_empty_witness :
  highlight_annotation [] default_color = Raise ValueError
  /\ highlight_line Samples.layout3 Samples.page_plain 4 = Ok Samples.page_plain.
Proof.
  destruct (highlight_annotation_empty default_color Samples.layout3
              Samples.page_plain 4) as (H1 & H2 & _).
  split; [exact H1|]. apply H2. reflexivity.
Defined.

(* ================================================================= *)
(** ** Attaching annotations *)

Section Dict.
Variable V : Type.

Lemma dict_get_set_same : forall k (v : V) d, dict_get k (dict_set k v d) = Some v.
Proof.
  intros k v. induction d as [|[k' v'] d IH]; simpl.
  - rewrite String.eqb_refl. reflexivity.
  - destruct (String.eqb k k') eqn:E; simpl; rewrite E; auto.
Qed.

Lemma dict_get_set_other : forall k k' (v : V) d,
  k' <> k -> dict_get k' (dict_set k v d) = dict_get k' d.
Proof.
  intros k k' v d Hk. induction d as [|[k0 v0] d IH]; simpl.
  - apply String.eqb_neq in Hk. rewrite Hk. reflexivity.
  - destruct (String.eqb k k0) eqn:E; simpl.
    + apply String.eqb_eq in E. subst k0.
      apply String.eqb_neq in Hk. rewrite Hk. reflexivity.
    + rewrite IH. reflexivity.
Qed.
End Dict.

Lemma attach_annots : forall page highlight old,
  annots page = Some old ->
  exists page',
    attach page highlight = Ok page'
    /\ annots page' = Some (old ++ [highlight])
    /\ forall k, k <> "/Annots"%string -> dict_get k page' = dict_get k page.
Proof.
  intros page h old H. unfold annots, attach in *.
  destruct (dict_get "/Annots" page) as [[| | | |items|]|] eqn:E;
    try discriminate; injection H as <-; eexists; (split; [reflexivity|]);
    rewrite dict_get_set_same; (split; [reflexivity|]);
    intros k Hk; apply dict_get_set_other; exact Hk.
Qed.

(** C7. Attaching appends to the annotation list of the page when it has
    one and creates a one-element list otherwise; after two attachments the
    list is the former list followed by the two annotations (two more
    entries, the former ones in place), and no other entry of the page
    changes. *)
Theorem attach_twice : forall page h1 h2 old,
  annots page = Some old ->
  exists page1 page2,
    attach page h1 = Ok page1
    /\ attach page1 h2 = Ok page2
    /\ annots page1 = Some (old ++ [h1])
    /\ (dict_get "/Annots" page = None ->
        dict_get "/Annots" page1 = Some (ArrayObject [h1]))
    /\ annots page2 = Some (old ++ [h1; h2])
    /\ length (old ++ [h1; h2]) = (length old + 2)%nat
    /\ firstn (length old) (old ++ [h1; h2]) = old
    /\ forall k, k <> "/Annots"%string -> dict_get k page2 = dict_get k page.
Proof.
  intros page h1 h2 old H.
  destruct (attach_annots page h1 H) as (page1 & A1 & N1 & O1).
  destruct (attach_annots page1 h2 N1) as (page2 & A2 & N2 & O2).
  exists page1, page2. rewrite <- app_assoc in N2.
  repeat split; auto.
  - intros Hnone. unfold attach in A1. rewrite Hnone in A1.
    injection A1 as <-. apply dict_get_set_same.
  - rewrite length_app. simpl. lia.
  - rewrite firstn_app, Nat.sub_diag, firstn_all. simpl. apply app_nil_r.
  - intros k Hk. rewrite O2, O1; auto.
Qed.

Lemma attach_twice_witness :
  exists page1 page2,
    attach Samples.page_noted (NumberObject 1) = Ok page1
    /\ attach page1 (NumberObject 2) = Ok page2
    /\ annots page2 = Some [Samples.note; NumberObject 1; NumberObject 2].
Proof.
  destruct (@attach_twice Samples.page_noted (NumberObject 1) (NumberObject 2)
              [Samples.note] eq_refl)
    as (page1 & page2 & H1 & H2 & _ & _ & H3 & _).
  exists page1, page2. auto.
Defined.

(* ================================================================= *)
(** ** The order of floats *)

Lemma SFcompare_opp : forall a b,
  SFcompare b a = option_map CompOpp (SFcompare a b).
Proof.
  intros [sa|sa| |sa ma ea] [sb|sb| |sb mb eb]; simpl; try reflexivity;
    try (destruct sa; reflexivity); try (destruct sb; reflexivity);
    try (destruct sa, sb; reflexivity).
  destruct sa, sb; try reflexivity;
    rewrite (Z.compare_antisym ea eb); destruct (ea ?= eb)%Z; simpl;
    try reflexivity;
    change (Pos.compare_cont Eq mb ma) with (Pos.compare mb ma);
    change (Pos.compare_cont Eq ma mb) with (Pos.compare ma mb);
    rewrite (Pos.compare_antisym ma mb); destruct (ma ?= mb)%positive;
    reflexivity.
Qed.

Lemma SFleb_trans : forall a b c,
  SFleb a b = true -> SFleb b c = true -> SFleb a c = true.
Proof.
  unfold SFleb.
  intros [sa|sa| |sa ma ea] [sb|sb| |sb mb eb] [sc|sc| |sc mc ec]; simpl;
    try discriminate; try reflexivity;
    try (destruct sa; try discriminate; try reflexivity);
    try (destruct sb; try discriminate; try reflexivity);
    try (destruct sc; try discriminate; try reflexivity);
    change (Pos.compare_cont Eq ma mb) with (Pos.compare ma mb);
    change (Pos.compare_cont Eq mb mc) with (Pos.compare mb mc);
    change (Pos.compare_cont Eq ma mc) with (Pos.compare ma mc);
    destruct (Z.compare_spec ea eb); try discriminate;
    destruct (Z.compare_spec eb ec); try discriminate;
    destruct (Z.compare_spec ea ec); try reflexivity; try lia;
    destruct (Pos.compare_spec ma mb); try discriminate;
    destruct (Pos.compare_spec mb mc); try discriminate;
    destruct (Pos.compare_spec ma mc); simpl; try reflexivity; try lia;
    intros; try discriminate.
Qed.

(** A float that compares [<=] to itself is a number (not NaN), and numbers
    are comparable. *)
Lemma SFcompare_numbers : forall a b,
  SFleb a a = true -> SFleb b b = true -> SFcompare a b <> None.
Proof.
  unfold SFleb.
  intros [sa|sa| |sa ma ea] [sb|sb| |sb mb eb]; simpl; congruence.
Qed.

Lemma SFleb_numbers : forall a b,
  SFleb a b = true -> SFleb a a = true /\ SFleb b b = true.
Proof.
  unfold SFleb.
  intros [sa|sa| |sa ma ea] [sb|sb| |sb mb eb]; simpl; try discriminate;
    intros _; split; try reflexivity;
    try (destruct sa; reflexivity); try (destruct sb; reflexivity);
    match goal with
    | |- context [Pos.compare_cont Eq ?m ?m] =>
        change (Pos.compare_cont Eq m m) with (Pos.compare m m);
        rewrite Z.compare_refl, Pos.compare_refl
    end;
    try (destruct sa; reflexivity); try (destruct sb; reflexivity).
Qed.

Section FloatOrder.
Open Scope float_scope.

Lemma leb_trans : forall x y z : float,
  (x <=? y) = true -> (y <=? z) = true -> (x <=? z) = true.
Proof. intros x y z. rewrite !leb_spec. apply SFleb_trans. Qed.

Lemma leb_numbers : forall x y : float,
  (x <=? y) = true -> (x <=? x) = true /\ (y <=? y) = true.
Proof. intros x y. rewrite !leb_spec. apply SFleb_numbers. Qed.

Lemma ltb_leb : forall x y : float, (x <? y) = true -> (x <=? y) = true.
Proof.
  intros x y. rewrite ltb_spec, leb_spec. unfold SFltb, SFleb.
  destruct (SFcompare (Prim2SF x) (Prim2SF y)) as [[| |]|]; congruence.
Qed.

Lemma not_ltb_leb : forall x y : float,
  (x <=? x) = true -> (y <=? y) = true -> (x <? y) = false -> (y <=? x) = true.
Proof.
  intros x y. rewrite ltb_spec, !leb_spec. intros Hx Hy.
  pose proof (@SFcompare_numbers _ _ Hx Hy) as Hc.
  unfold SFltb, SFleb. rewrite (SFcompare_opp (Prim2SF x) (Prim2SF y)).
  destruct (SFcompare (Prim2SF x) (Prim2SF y)) as [[| |]|]; simpl; congruence.
Qed.

(** [min] and [max] of numbers are a least and a greatest item. *)
Lemma min_from_is_min : forall xs x,
  (forall y, In y (x :: xs) -> (y <=? y) = true) ->
  is_min (min_from x xs) (x :: xs).
Proof.
  unfold min_from.
  induction xs as [|item xs IH]; intros x Hn.
  - split; [left; reflexivity|]. intros y [<-|[]]. apply Hn. left. reflexivity.
  - cbn [fold_left].
    set (cur := if item <? x then item else x).
    assert (Hcur : (cur <=? x) = true /\ (cur <=? item) = true
                   /\ (cur = x \/ cur = item)).
    { unfold cur. destruct (item <? x) eqn:E.
      - repeat split; auto using ltb_leb. apply Hn. right. left. reflexivity.
      - repeat split; auto.
        + apply Hn. left. reflexivity.
        + apply not_ltb_leb; auto; apply Hn; simpl; auto. }
    destruct Hcur as (Hx & Hi & Hin).
    destruct (IH cur) as [Hm Hle].
    { intros y [<-|Hy].
      - destruct Hin as [->| ->]; apply Hn; simpl; auto.
      - apply Hn. simpl. auto. }
    split.
    + destruct Hm as [<-|Hm]; [|simpl; auto].
      destruct Hin as [->| ->]; simpl; auto.
    + assert (Hc : (fold_left (fun cur0 item0 =>
                      if item0 <? cur0 then item0 else cur0) xs cur <=? cur) = true)
        by (apply Hle; left; reflexivity).
      intros y [<-|[<-|Hy]].
      * exact (leb_trans Hc Hx).
      * exact (leb_trans Hc Hi).
      * apply Hle. right. exact Hy.
Qed.

Lemma max_from_is_max : forall xs x,
  (forall y, In y (x :: xs) -> (y <=? y) = true) ->
  is_max (max_from x xs) (x :: xs).
Proof.
  unfold max_from.
  induction xs as [|item xs IH]; intros x Hn.
  - split; [left; reflexivity|]. intros y [<-|[]]. apply Hn. left. reflexivity.
  - cbn [fold_left].
    set (cur := if x <? item then item else x).
    assert (Hcur : (x <=? cur) = true /\ (item <=? cur) = true
                   /\ (cur = x \/ cur = item)).
    { unfold cur. destruct (x <? item) eqn:E.
      - repeat split; auto using ltb_leb. apply Hn. right. left. reflexivity.
      - repeat split; auto.
        + apply Hn. left. reflexivity.
        + apply not_ltb_leb; auto; apply Hn; simpl; auto. }
    destruct Hcur as (Hx & Hi & Hin).
    destruct (IH cur) as [Hm Hle].
    { intros y [<-|Hy].
      - destruct Hin as [->| ->]; apply Hn; simpl; auto.
      - apply Hn. simpl. auto. }
    split.
    + destruct Hm as [<-|Hm]; [|simpl; auto].
      destruct Hin as [->| ->]; simpl; auto.
    + assert (Hc : (cur <=? fold_left (fun cur0 item0 =>
                      if cur0 <? item0 then item0 else cur0) xs cur) = true)
        by (apply Hle; left; reflexivity).
      intros y [<-|[<-|Hy]].
      * exact (leb_trans Hx Hc).
      * exact (leb_trans Hi Hc).
      * apply Hle. right. exact Hy.
Qed.
End FloatOrder.

(** C4. For every non-empty sequence of bounding boxes (each with
    [x0 <= x1] and [y0 <= y1]) the /Rect of the annotation is the bounding
    union of the boxes: a least [x0], a least [y0], a greatest [x1] and a
    greatest [y1] among the boxes, in this order. *)
Theorem highlight_annotation_rect : forall boxes color,
  boxes <> [] ->
  Forall well_formed boxes ->
  exists annotation a b c d,
    highlight_annotation (map list_of_bbox boxes) color = Ok annotation
    /\ entry "/Rect" annotation
       = Some (ArrayObject [FloatObject a; FloatObject b; FloatObject c; FloatObject d])
    /\ is_min a (map x0 boxes) /\ is_min b (map y0 boxes)
    /\ is_max c (map x1 boxes) /\ is_max d (map y1 boxes).
Proof.
  intros [|b0 boxes] color Hne Hwf; [contradiction|].
  rewrite highlight_annotation_boxes.
  assert (Hnum : forall box, In box (b0 :: boxes) ->
            (PrimFloat.leb (x0 box) (x0 box) = true
             /\ PrimFloat.leb (x1 box) (x1 box) = true)
            /\ PrimFloat.leb (y0 box) (y0 box) = true
               /\ PrimFloat.leb (y1 box) (y1 box) = true).
  { intros box Hin. rewrite Forall_forall in Hwf.
    destruct (Hwf box Hin) as [Hx Hy].
    split; [exact (leb_numbers Hx) | exact (leb_numbers Hy)]. }
  assert (Hin : forall (f : BoundingBox -> float) y,
            In y (f b0 :: map f boxes) -> exists box, f box = y /\ In box (b0 :: boxes)).
  { intros f y Hy. change (In y (map f (b0 :: boxes))) in Hy.
    apply in_map_iff in Hy. exact Hy. }
  exists (DictionaryObject
          [("/F", NumberObject 4);
           ("/Type", NameObject "/Annot");
           ("/Subtype", NameObject "/Highlight");
           ("/C", ArrayObject (map FloatObject color));
           ("/Rect", ArrayObject (map FloatObject
              [min_from (x0 b0) (map x0 boxes); min_from (y0 b0) (map y0 boxes);
               max_from (x1 b0) (map x1 boxes); max_from (y1 b0) (map y1 boxes)]));
           ("/QuadPoints", ArrayObject (map FloatObject
              (flat_map quad_points_of (b0 :: boxes))))])%string.
  exists (min_from (x0 b0) (map x0 boxes)), (min_from (y0 b0) (map y0 boxes)),
    (max_from (x1 b0) (map x1 boxes)), (max_from (y1 b0) (map y1 boxes)).
  split; [reflexivity|]. split; [reflexivity|].
  split; [|split; [|split]].
  - apply min_from_is_min. intros y Hy.
    destruct (Hin x0 y Hy) as (box & <- & Hb). apply Hnum in Hb. tauto.
  - apply min_from_is_min. intros y Hy.
    destruct (Hin y0 y Hy) as (box & <- & Hb). apply Hnum in Hb. tauto.
  - apply max_from_is_max. intros y Hy.
    destruct (Hin x1 y Hy) as (box & <- & Hb). apply Hnum in Hb. tauto.
  - apply max_from_is_max. intros y Hy.
    destruct (Hin y1 y Hy) as (box & <- & Hb). apply Hnum in Hb. tauto.
Qed.

Lemma highlight_annotation_rect_witness :
  exists annotation a b c d,
    highlight_annotation
      (map list_of_bbox [Samples.box_a; Samples.box_b; Samples.box_c]) default_color
    = Ok annotation
    /\ entry "/Rect" annotation
       = Some (ArrayObject [FloatObject a; FloatObject b; FloatObject c; FloatObject d])
    /\ is_min a [72; 72; 90]%float /\ is_min b [700; 686; 650]%float
    /\ is_max c [300; 280; 310.5]%float /\ is_max d [712; 698; 662]%float.
Proof.
  apply (@highlight_annotation_rect
           [Samples.box_a; Samples.box_b; Samples.box_c] default_color).
  - discriminate.
  - repeat constructor.
Defined.

(* ================================================================= *)
(** ** The endpoint *)

(** Every reference has page 1. *)
Lemma extract_lines_page_one : forall s refs p n,
  extract_lines s = Ok refs -> In (p, n) refs -> p = 1%Z.
Proof.
  intros s refs p n H Hin. apply extract_lines_ok in H. destruct H as [_ ->].
  apply in_flat_map in Hin. destruct Hin as (ab & _ & Hin).
  apply expand_In in Hin. tauto.
Qed.

Lemma extract_lines_nil : extract_lines [] = Ok [].
Proof. reflexivity. Qed.

(** Lines without a box leave the page as it is. *)
Lemma highlight_lines_none : forall layout page lines,
  (forall n, In n lines -> extract_line_bboxes layout n = []) ->
  highlight_lines layout page lines = Ok page.
Proof.
  intros layout page. induction lines as [|n lines IH]; intros H; simpl.
  - reflexivity.
  - unfold highlight_line. rewrite (H n) by (left; reflexivity). simpl.
    apply IH. intros m Hm. apply H. right. exact Hm.
Qed.

Lemma lines_on_page_In : forall refs page_num n,
  In n (lines_on_page refs page_num) -> In (page_num, n) refs.
Proof.
  intros refs page_num n H. unfold lines_on_page in H.
  apply in_map_iff in H. destruct H as ([p m] & <- & H).
  apply filter_In in H. destruct H as [H E]. simpl in *.
  apply Z.eqb_eq in E. subst p. exact H.
Qed.

(** When no cited line has a box on its page, every page goes to the writer
    as it was read. *)
Lemma process_pages_unmodified : forall w pdf_content refs layouts,
  extract_pages w pdf_content = Ok layouts ->
  (forall page_num layout n,
     nth_error layouts (Z.to_nat (page_num - 1)) = Some layout ->
     In (page_num, n) refs -> extract_line_bboxes layout n = []) ->
  forall pages page_num writer,
    (1 <= page_num)%Z ->
    (Z.to_nat (page_num - 1) + length pages <= length layouts)%nat ->
    process_pages w pdf_content refs page_num pages writer = Ok (writer ++ pages).
Proof.
  intros w pdf_content refs layouts Hl Hnone.
  induction pages as [|page pages IH]; intros page_num writer H1 Hlen;
    cbn [process_pages].
  - rewrite app_nil_r. reflexivity.
  - rewrite Hl. cbn [bind]. unfold index.
    destruct (nth_error layouts (Z.to_nat (page_num - 1))) as [layout|] eqn:E.
    2:{ apply nth_error_None in E. simpl in Hlen. lia. }
    cbn [bind].
    assert (Hp : match lines_on_page refs page_num with
                 | [] => Ok page
                 | (_ :: _) as lines_to_highlight =>
                     highlight_lines layout page lines_to_highlight
                 end = Ok page).
    { destruct (lines_on_page refs page_num) as [|n lines] eqn:El; [reflexivity|].
      apply highlight_lines_none. intros m Hm. rewrite <- El in Hm.
      apply (Hnone page_num layout m E). apply lines_on_page_In. exact Hm. }
    rewrite Hp. cbn [bind]. rewrite IH.
    + rewrite <- app_assoc. reflexivity.
    + lia.
    + simpl in Hlen. lia.
Qed.

(** C8. When every line reference of the citation lies beyond the last line
    of the cited page, and the document is fetched, read and written without
    failure, no annotation is injected: the writer receives the pages as they
    were read, and the response is the PDF with status 200. *)
Theorem view_pdf_lines_beyond_page :
  forall w s fetched refs pages layouts output,
    requests_get w (PDF_URL (extract_document_name s)) = Ok fetched ->
    status_code fetched = 200%Z ->
    extract_lines s = Ok refs -> refs <> [] ->
    PdfReader_pages w (content fetched) = Ok pages ->
    extract_pages w (content fetched) = Ok layouts ->
    (length pages <= length layouts)%nat ->
    (forall layout p n,
       nth_error layouts 0 = Some layout -> In (p, n) refs ->
       (Z.of_nat (length (text_lines layout)) < n)%Z) ->
    PdfWriter_write w pages = Ok output ->
    process_pages w (content fetched) refs 1 pages [] = Ok pages
    /\ view_pdf w (Some s)
       = ([HttpGet (PDF_URL (extract_document_name s))],
          Ok (Response (PdfFile output) 200)).
Proof.
  intros w s fetched refs pages layouts output Hget Hst Hrefs Hne Hread Hlay
         Hlen Hbeyond Hwrite.
  assert (Hpages : process_pages w (content fetched) refs 1 pages [] = Ok pages).
  { apply (process_pages_unmodified w (content fetched) refs Hlay); [|lia|simpl; lia].
    intros page_num layout n Hnth Hin.
    assert (page_num = 1%Z) by (eapply extract_lines_page_one; eauto). subst page_num.
    apply extract_line_bboxes_none. right. eapply Hbeyond; eauto. }
  split; [exact Hpages|].
  unfold view_pdf. rewrite Hget. cbn [bind]. rewrite Hst. cbn [Z.eqb Pos.eqb negb].
  destruct s as [|c s]; [rewrite extract_lines_nil in Hrefs; congruence|].
  rewrite Hrefs. cbn [bind].
  destruct refs as [|r refs]; [contradiction|].
  unfold annotate. rewrite Hread. cbn [bind]. rewrite Hpages. cbn [bind].
  rewrite Hwrite. reflexivity.
Qed.

Lemma view_pdf_lines_beyond_page_witness :
  process_pages Samples.world_doc [Byte.x25; Byte.x50] [(1, 8); (1, 9)]%Z 1
    [Samples.page_noted; Samples.page_plain] []
  = Ok [Samples.page_noted; Samples.page_plain]
  /\ view_pdf Samples.world_doc (Some (str "(doc.pdf, Lines 8-9)"))
     = ([HttpGet (PDF_URL (extract_document_name (str "(doc.pdf, Lines 8-9)")))],
        Ok (Response (PdfFile [Byte.x25; Byte.x25]) 200)).
Proof.
  apply (@view_pdf_lines_beyond_page Samples.world_doc
           (str "(doc.pdf, Lines 8-9)") (HttpResponse 200 [Byte.x25; Byte.x50])
           [(1, 8); (1, 9)]%Z [Samples.page_noted; Samples.page_plain]
           [Samples.layout3; []] [Byte.x25; Byte.x25]);
    try reflexivity.
  - discriminate.
  - intros layout p n [= <-] [[= <- <-]|[[= <- <-]|[]]]; simpl; lia.
Defined.

(** C2, as stated, fails: for a text without any [Lines] the document is
    requested all the same (here at ".../None"), and the outcome is the
    fetch error 500, not a 400. *)
Lemma view_pdf_fetches_before_parsing :
  extract_lines (str "see the handbook") = Ok []
  /\ view_pdf Samples.world_404 (Some (str "see the handbook"))
     = ([HttpGet (str "https://ioclhrchatgpt.blob.core.windows.net/hrhbtb-pdf-chunks/None")],
        Ok (Response (Text "Unable to fetch the PDF.") 500)).
Proof. split; reflexivity. Qed.

(** C2, amended. For a non-empty text that yields no line reference,
    [view_pdf] first requests the document (named after the text, "None"
    when it names none); a failure of the request leaves the function, an
    answer other than 200 gives the 500 response of the fetch, and only an
    answer 200 gives the 400 response "No lines to highlight." *)
Theorem view_pdf_no_lines : forall w s,
  s <> [] ->
  extract_lines s = Ok [] ->
  view_pdf w (Some s)
  = ([HttpGet (PDF_URL (extract_document_name s))],
     match requests_get w (PDF_URL (extract_document_name s)) with
     | Raise e => Raise e
     | Ok fetched =>
         if (status_code fetched =? 200)%Z
         then Ok (Response (Text "No lines to highlight.") 400)
         else Ok (Response (Text "Unable to fetch the PDF.") 500)
     end).
Proof.
  intros w s Hne Hrefs. unfold view_pdf. f_equal.
  destruct (requests_get w (PDF_URL (extract_document_name s))) as [fetched|e];
    [|reflexivity].
  cbn [bind]. destruct (status_code fetched =? 200)%Z; [|reflexivity].
  destruct s as [|c s]; [contradiction|]. cbn [negb]. rewrite Hrefs. reflexivity.
Qed.

Lemma view_pdf_no_lines_witness :
  view_pdf Samples.world_doc (Some (str "see the handbook"))
  = ([HttpGet (PDF_URL None)],
     Ok (Response (Text "No lines to highlight.") 400)).
Proof.
  apply (@view_pdf_no_lines Samples.world_doc (str "see the handbook")).
  - discriminate.
  - reflexivity.
Defined.

(* ================================================================= *)
(** ** More on citation parsing *)

Lemma extract_lines_occurrences : forall s,
  lines_within_limit s = true ->
  extract_lines s = Ok (flat_map expand (lines_occurrences s)).
Proof. intros s H. rewrite extract_lines_cases, H. reflexivity. Qed.

Lemma extract_lines_raise : forall s e,
  extract_lines s = Raise e -> e = ValueError /\ lines_within_limit s = false.
Proof.
  intros s e H. rewrite extract_lines_cases in H.
  destruct (lines_within_limit s); [discriminate|].
  injection H as <-. auto.
Qed.

Lemma lines_within_limit_no_L : forall s,
  forallb not_L s = true -> lines_within_limit s = true.
Proof.
  intros s H. rewrite <- (app_nil_r s). rewrite lines_within_limit_skip by exact H.
  reflexivity.
Qed.

Lemma lines_occurrences_no_L : forall s,
  forallb not_L s = true -> lines_occurrences s = [].
Proof.
  intros s H. rewrite <- (app_nil_r s). rewrite lines_occurrences_skip by exact H.
  reflexivity.
Qed.

(** X1. The pattern is case-sensitive and anchored on a capital [L]: a text
    without that character yields no reference. *)
Theorem extract_lines_without_capital_L : forall s,
  forallb not_L s = true -> extract_lines s = Ok [].
Proof.
  intros s H.
  rewrite extract_lines_occurrences by (apply lines_within_limit_no_L; exact H).
  rewrite lines_occurrences_no_L by exact H. reflexivity.
Qed.

Lemma extract_lines_without_capital_L_witness :
  extract_lines (str "This can be found on p. 3, lines 5-7") = Ok [].
Proof.
  apply extract_lines_without_capital_L. reflexivity.
Defined.

Lemma lines_at_cons_L : forall s da db rest,
  lines_at s = Some (da, db, rest) ->
  let u := str "ines " ++ da ++ str "-" ++ db in
  s = "L"%char :: u ++ rest /\ forallb not_L u = true
  /\ forallb inside_match u = true.
Proof.
  intros s da db rest H u. apply lines_at_iff in H.
  destruct H as (-> & _ & Da & _ & Db & _). unfold u. split.
  - rewrite <- !app_assoc. reflexivity.
  - assert (Hd : forall ds, forallb is_digit ds = true ->
                   forallb inside_match ds = true).
    { induction ds as [|d ds IH]; simpl; [reflexivity|]. intros H.
      apply andb_true_iff in H. destruct H as [H1 H2].
      unfold inside_match at 1. rewrite H1. simpl. auto. }
    rewrite !forallb_app, (digits_not_L _ Da), (digits_not_L _ Db),
      (Hd _ Da), (Hd _ Db). split; reflexivity.
Qed.

(** X2. A single citation [Lines <da>-<db>], with numbers of at most 4300
    digits, between two texts without a capital [L], the second not starting
    with a digit, is read back as the lines of its range. *)
Theorem extract_lines_single_citation : forall pre da db post,
  forallb not_L pre = true -> forallb not_L post = true ->
  da <> [] -> forallb is_digit da = true ->
  db <> [] -> forallb is_digit db = true ->
  (Z.of_nat (length da) <= 4300)%Z -> (Z.of_nat (length db) <= 4300)%Z ->
  match post with c :: _ => is_digit c = false | [] => True end ->
  extract_lines (pre ++ str "Lines " ++ da ++ str "-" ++ db ++ post)
  = Ok (map (fun n => (1%Z, n))
            (range (digits_value da) (digits_value db + 1))).
Proof.
  intros pre da db post Hpre Hpost Na Da Nb Db La Lb Hd.
  assert (Hat : lines_at (str "Lines " ++ da ++ str "-" ++ db ++ post)
                = Some (da, db, post)) by (apply lines_at_iff; auto 10).
  destruct (lines_at_cons_L _ Hat) as (Hu & HL & _).
  rewrite extract_lines_occurrences.
  - rewrite lines_occurrences_skip by exact Hpre.
    rewrite Hu in *. cbn [lines_occurrences]. rewrite Hat.
    rewrite lines_occurrences_skip, lines_occurrences_no_L by assumption.
    cbn [flat_map]. rewrite app_nil_r. reflexivity.
  - rewrite lines_within_limit_skip by exact Hpre.
    rewrite Hu in *. cbn [lines_within_limit]. rewrite Hat.
    rewrite lines_within_limit_skip, lines_within_limit_no_L by assumption.
    unfold short_number.
    replace (Z.of_nat (length da) <=? 4300)%Z with true
      by (symmetry; apply Z.leb_le; exact La).
    replace (Z.of_nat (length db) <=? 4300)%Z with true
      by (symmetry; apply Z.leb_le; exact Lb).
    reflexivity.
Qed.

Lemma extract_lines_single_citation_witness :
  extract_lines (str "see (doc.pdf, Lines 12-14), second paragraph")
  = Ok [(1, 12); (1, 13); (1, 14)]%Z.
Proof.
  apply (@extract_lines_single_citation (str "see (doc.pdf, ") (str "12")
           (str "14") (str "), second paragraph")); try reflexivity;
    discriminate.
Defined.

Lemma starts_apart_app : forall rest s2,
  starts_apart s2 ->
  match rest with c :: _ => is_digit c = false | [] => True end ->
  match rest ++ s2 with c :: _ => is_digit c = false | [] => True end.
Proof.
  intros [|c rest] s2 H2 Hr; simpl; [|exact Hr].
  destruct s2 as [|c s2]; [exact I|]. simpl in H2.
  unfold inside_match in H2. apply orb_false_iff in H2. tauto.
Qed.

(** Before a text that starts apart, a suffix of the text in front has the
    same match alone and in the whole. *)
Lemma lines_at_app : forall u s2,
  u <> [] -> starts_apart s2 ->
  lines_at (u ++ s2) =
  match lines_at u with
  | Some (da, db, rest) => Some (da, db, rest ++ s2)
  | None => None
  end.
Proof.
  intros u s2 Hu H2.
  destruct (lines_at u) as [[[da db] rest]|] eqn:E.
  - apply lines_at_iff in E. destruct E as (-> & Na & Da & Nb & Db & Hr).
    apply lines_at_iff. rewrite <- !app_assoc.
    repeat split; auto. apply starts_apart_app; assumption.
  - destruct (lines_at (u ++ s2)) as [[[da db] rest]|] eqn:E2; [|reflexivity].
    exfalso.
    pose proof (lines_at_cons_L _ E2) as HL. cbv zeta in HL.
    apply lines_at_iff in E2. destruct E2 as (_ & Na & Da & Nb & Db & Hr).
    assert (Hat : forall l,
              match l with c :: _ => is_digit c = false | [] => True end ->
              lines_at ("L"%char :: (str "ines " ++ da ++ str "-" ++ db) ++ l)
              = Some (da, db, l)).
    { intros l Hl. apply lines_at_iff. rewrite <- !app_assoc.
      repeat split; auto. }
    remember (str "ines " ++ da ++ str "-" ++ db) as v eqn:Ev in *.
    destruct HL as (Hv & _ & Hin).
    destruct u as [|c u]; [contradiction|].
    injection Hv as -> Hv.
    apply app_eq_app in Hv. destruct Hv as (l & [[-> ->]|[-> ->]]).
    + (* the match ends inside [u]: it is a match of [u] alone *)
      rewrite Hat in E; [discriminate|].
      destruct l as [|c l]; [exact I|exact Hr].
    + (* the match goes on into [s2]: its next character is inside a match *)
      destruct l as [|c l].
      * specialize (Hat [] I). rewrite !app_nil_r in Hat. congruence.
      * rewrite forallb_app in Hin. apply andb_true_iff in Hin.
        destruct Hin as [_ Hin]. simpl in Hin, H2.
        rewrite H2 in Hin. discriminate.
Qed.

Lemma lines_occurrences_app : forall s1 s2,
  starts_apart s2 ->
  lines_occurrences (s1 ++ s2) = lines_occurrences s1 ++ lines_occurrences s2.
Proof.
  induction s1 as [|c s1 IH]; intros s2 H2; [reflexivity|].
  change ((c :: s1) ++ s2) with (c :: s1 ++ s2). cbn [lines_occurrences].
  change (c :: s1 ++ s2) with ((c :: s1) ++ s2).
  rewrite lines_at_app by (discriminate || exact H2).
  destruct (lines_at (c :: s1)) as [[[da db] rest]|]; rewrite IH by exact H2;
    reflexivity.
Qed.

Lemma lines_within_limit_app : forall s1 s2,
  starts_apart s2 ->
  lines_within_limit (s1 ++ s2)
  = lines_within_limit s1 && lines_within_limit s2.
Proof.
  induction s1 as [|c s1 IH]; intros s2 H2; [reflexivity|].
  change ((c :: s1) ++ s2) with (c :: s1 ++ s2). cbn [lines_within_limit].
  change (c :: s1 ++ s2) with ((c :: s1) ++ s2).
  rewrite lines_at_app by (discriminate || exact H2).
  destruct (lines_at (c :: s1)) as [[[da db] rest]|]; rewrite IH by exact H2;
    [rewrite andb_assoc|]; reflexivity.
Qed.

(** X3. Texts are read piecewise: when the second text starts with a
    character that occurs in no match after its first one (anything but a
    digit, a dash, a blank and the letters of "ines"), reading the
    concatenation is reading the first text and then the second: the
    references are those of the first followed by those of the second, and
    the concatenation raises exactly when one of the two does. *)
Theorem extract_lines_app : forall s1 s2,
  starts_apart s2 ->
  extract_lines (s1 ++ s2)
  = (refs1 <- extract_lines s1 ;;
     refs2 <- extract_lines s2 ;;
     Ok (refs1 ++ refs2)).
Proof.
  intros s1 s2 H2. rewrite !extract_lines_cases.
  rewrite lines_within_limit_app, lines_occurrences_app, flat_map_app by exact H2.
  destruct (lines_within_limit s1); [|reflexivity].
  destruct (lines_within_limit s2); reflexivity.
Qed.

Lemma extract_lines_app_witness :
  extract_lines (str "Lines 1-2 and Lines 3" ++ str "(doc.pdf, Lines 8-9)")
  = Ok [(1, 1); (1, 2); (1, 8); (1, 9)]%Z.
Proof.
  rewrite (@extract_lines_app (str "Lines 1-2 and Lines 3")
             (str "(doc.pdf, Lines 8-9)")); reflexivity.
Defined.

(** The name that is found stands at the head of some suffix of the text. *)
Lemma extract_document_name_some : forall s name,
  extract_document_name s = Some name ->
  exists pre suf, s = pre ++ suf /\ document_at suf name.
Proof.
  intros s name H. unfold extract_document_name in H.
  destruct (search document_pattern s) as [m|] eqn:E; [|discriminate].
  injection H as <-. apply search_some in E. destruct E as (pre & Hs & D & _).
  exists pre, (matched m ++ after m). split; [exact Hs|].
  apply document_at_denotes. exists (matched m), (after m), (groups m).
  unfold group. auto.
Qed.

(** X4. A name that is found ends in [.pdf] after a non-empty stem, holds
    no comma, and is followed in the text by [, Lines ]. *)
Theorem extract_document_name_shape : forall s name,
  extract_document_name s = Some name ->
  (exists stem, name = stem ++ str ".pdf" /\ stem <> [])
  /\ forallb not_comma name = true
  /\ exists pre post, s = pre ++ str "(" ++ name ++ str ", Lines " ++ post.
Proof.
  intros s name H. apply extract_document_name_some in H.
  destruct H as (pre & suf & -> & stem & da & db & rest & -> & -> & Ns & Hs & _).
  split; [eauto|]. split; [apply pdf_suffix_no_comma; exact Hs|].
  exists pre, (da ++ str "-" ++ db ++ str ")" ++ rest). reflexivity.
Qed.

Lemma extract_document_name_shape_witness :
  (exists stem, str "(a b.pdf" = stem ++ str ".pdf" /\ stem <> [])
  /\ forallb not_comma (str "(a b.pdf") = true
  /\ exists pre post,
       str "((a b.pdf, Lines 1-2)"
       = pre ++ str "(" ++ str "(a b.pdf" ++ str ", Lines " ++ post.
Proof.
  apply (@extract_document_name_shape (str "((a b.pdf, Lines 1-2)")).
  reflexivity.
Defined.




Lemma match_here_document_other : forall c s,
  Ascii.eqb "(" c = false -> match_here document_pattern (c :: s) = None.
Proof.
  intros c s H. unfold match_here, document_pattern.
  rewrite rmatch_cat, rmatch_chr, H. reflexivity.
Qed.

Lemma search_document_at : forall suf name,
  document_at suf name ->
  exists m, search document_pattern suf = Some m /\ group m 1 = name.
Proof.
  intros suf name H. pose proof H as H'. apply document_at_denotes in H'.
  destruct H' as (w & rest & caps & -> & D & _).
  destruct (@match_here_complete _ w rest caps D) as [m Hm].
  exists m. split.
  - revert Hm. generalize (w ++ rest). intros t Hm.
    destruct t; cbn [search]; rewrite Hm; reflexivity.
  - apply match_here_sound in Hm. destruct Hm as [Hs Dm].
    assert (Hd : document_at (w ++ rest) (group m 1)).
    { apply document_at_denotes. exists (matched m), (after m), (groups m).
      unfold group. auto. }
    rewrite (document_at_name Hd), (document_at_name H). reflexivity.
Qed.

(** X6. A citation written as [(<stem>.pdf, Lines <da>-<db>)] after a text
    without an opening parenthesis is read back: the name found is
    [<stem>.pdf], whatever follows. *)
Theorem extract_document_name_round_trip : forall pre stem da db post,
  forallb not_paren pre = true ->
  stem <> [] -> forallb not_comma stem = true ->
  da <> [] -> forallb is_digit da = true ->
  db <> [] -> forallb is_digit db = true ->
  extract_document_name
    (pre ++ str "(" ++ (stem ++ str ".pdf") ++ str ", Lines "
         ++ da ++ str "-" ++ db ++ str ")" ++ post)
  = Some (stem ++ str ".pdf").
Proof.
  intros pre stem da db post Hpre Ns Hs Na Da Nb Db.
  assert (Hd : document_at
                 (str "(" ++ (stem ++ str ".pdf") ++ str ", Lines "
                      ++ da ++ str "-" ++ db ++ str ")" ++ post)
                 (stem ++ str ".pdf")).
  { exists stem, da, db, post. repeat split; auto. }
  destruct (search_document_at Hd) as (m & Hm & Hg).
  unfold extract_document_name.
  induction pre as [|c pre IH].
  - cbn [app]. rewrite Hm, Hg. reflexivity.
  - cbn [forallb] in Hpre. apply andb_true_iff in Hpre.
    destruct Hpre as [Hc Hpre]. apply negb_true_iff in Hc.
    cbn [app search]. rewrite (@match_here_document_other c _ Hc).
    apply IH. exact Hpre.
Qed.

Lemma extract_document_name_round_trip_witness :
  extract_document_name
    (str "As stated in " ++ str "(" ++ (str "leave policy" ++ str ".pdf")
         ++ str ", Lines " ++ str "10" ++ str "-" ++ str "12" ++ str ")"
         ++ str " and (x.pdf, Lines 1-1)")
  = Some (str "leave policy" ++ str ".pdf").
Proof.
  apply (@extract_document_name_round_trip (str "As stated in ")
           (str "leave policy") (str "10") (str "12")
           (str " and (x.pdf, Lines 1-1)")); try reflexivity; discriminate.
Defined.

(* ================================================================= *)
(** ** More on locating a line *)

(** The locator as a function of the text lines of the page. *)
Lemma extract_line_bboxes_text_lines : forall layout N,
  extract_line_bboxes layout N =
  if (1 <=? N)%Z then
    match nth_error (text_lines layout) (Z.to_nat (N - 1)) with
    | Some b => [list_of_bbox b]
    | None => []
    end
  else [].
Proof.
  intros layout N. unfold extract_line_bboxes.
  destruct (1 <=? N)%Z eqn:E.
  - apply Z.leb_le in E. rewrite scan_layout_before by (simpl; lia). simpl.
    rewrite Z.sub_0_r. destruct (nth_error _ _); reflexivity.
  - apply Z.leb_gt in E. apply scan_layout_past. simpl. lia.
Qed.

(** X7. Only the text lines count: two layouts with the same text lines in
    the same order (whatever their grouping into containers, and whatever
    other items stand between them) give the same box for every line
    number. *)
Theorem extract_line_bboxes_grouping : forall layout1 layout2 N,
  text_lines layout1 = text_lines layout2 ->
  extract_line_bboxes layout1 N = extract_line_bboxes layout2 N.
Proof.
  intros layout1 layout2 N H.
  rewrite !extract_line_bboxes_text_lines, H. reflexivity.
Qed.

Lemma extract_line_bboxes_grouping_witness :
  extract_line_bboxes Samples.layout3 3
  = extract_line_bboxes
      [LTTextContainer [LTTextLine Samples.box_a];
       LTTextContainer [];
       LTTextContainer [LTTextLine Samples.box_b; LTTextLine Samples.box_c;
                        LTOtherItem]] 3.
Proof.
  apply extract_line_bboxes_grouping. reflexivity.
Defined.

(** X8. The count runs on from one part of a page to the next: in a layout
    made of two parts, a line number up to the number [K1] of text lines of
    the first part is located in the first part, and a greater one [N] is
    line [N - K1] of the second part. *)
Theorem extract_line_bboxes_app : forall layout1 layout2 N,
  extract_line_bboxes (layout1 ++ layout2) N =
  if (N <=? Z.of_nat (length (text_lines layout1)))%Z
  then extract_line_bboxes layout1 N
  else extract_line_bboxes layout2 (N - Z.of_nat (length (text_lines layout1))).
Proof.
  intros layout1 layout2 N. rewrite !extract_line_bboxes_text_lines.
  unfold text_lines at 1. rewrite flat_map_app. fold (text_lines layout1).
  fold (text_lines layout2).
  set (K1 := length (text_lines layout1)).
  destruct (N <=? Z.of_nat K1)%Z eqn:E1; destruct (1 <=? N)%Z eqn:E2;
    try apply Z.leb_le in E1; try apply Z.leb_gt in E1;
    try apply Z.leb_le in E2; try apply Z.leb_gt in E2.
  - rewrite nth_error_app1 by (unfold K1 in E1; lia). reflexivity.
  - reflexivity.
  - replace (1 <=? N - Z.of_nat K1)%Z with true by (symmetry; apply Z.leb_le; lia).
    rewrite nth_error_app2 by (fold K1; lia). fold K1.
    replace (Z.to_nat (N - Z.of_nat K1 - 1)) with (Z.to_nat (N - 1) - K1)%nat by lia.
    reflexivity.
  - lia.
Qed.

(* ================================================================= *)
(** ** More on the annotation *)

Lemma unpack4_ok : forall (A : Type) (l : list A) t,
  unpack4 l = Ok t -> length l = 4%nat.
Proof.
  intros A [|a [|b [|c [|d [|e l]]]]] t H; simpl in H; try discriminate.
  reflexivity.
Qed.

Lemma unpack4_raise : forall (A : Type) (l : list A) e,
  unpack4 l = Raise e -> e = ValueError.
Proof.
  intros A [|a [|b [|c [|d [|e' l]]]]] e H; simpl in H; congruence.
Qed.

Lemma quad_points_loop_ok : forall bounds acc q,
  quad_points_loop bounds acc = Ok q ->
  Forall (fun b => length b = 4%nat) bounds.
Proof.
  induction bounds as [|bbox bounds IH]; intros acc q H; [constructor|].
  cbn [quad_points_loop] in H.
  destruct (unpack4 bbox) as [[[[a b] c] d]|] eqn:E; [|discriminate].
  cbn [bind] in H. constructor; [eapply unpack4_ok; exact E|].
  eapply IH. exact H.
Qed.

Lemma quad_points_loop_raise : forall bounds acc e,
  quad_points_loop bounds acc = Raise e -> e = ValueError.
Proof.
  induction bounds as [|bbox bounds IH]; intros acc e H; [discriminate|].
  cbn [quad_points_loop] in H.
  destruct (unpack4 bbox) as [[[[a b] c] d]|] eqn:E.
  - cbn [bind] in H. eapply IH. exact H.
  - cbn [bind] in H. injection H as <-. eapply unpack4_raise. exact E.
Qed.

Lemma rows_of_boxes : forall bounds,
  Forall (fun b => length b = 4%nat) bounds ->
  exists boxes, bounds = map list_of_bbox boxes.
Proof.
  induction bounds as [|row bounds IH]; intros H.
  - exists []. reflexivity.
  - inversion H as [|? ? Hrow Hrest]; subst.
    destruct (IH Hrest) as [boxes ->].
    destruct row as [|a [|b [|c [|d [|e l]]]]]; try discriminate.
    exists (BBox a b c d :: boxes). reflexivity.
Qed.

Lemma min_raise : forall l e, Py.min l = Raise e -> e = ValueError.
Proof. intros [|x l] e H; simpl in H; congruence. Qed.

Lemma max_raise : forall l e, Py.max l = Raise e -> e = ValueError.
Proof. intros [|x l] e H; simpl in H; congruence. Qed.

(** X9. [highlight_annotation] returns an annotation exactly for a
    non-empty sequence of boxes of four coordinates each; on any other input
    it raises, and what it raises is a [ValueError]. *)
Theorem highlight_annotation_succeeds_iff : forall bounds color,
  ((exists annotation, highlight_annotation bounds color = Ok annotation) <->
   bounds <> [] /\ Forall (fun b => length b = 4%nat) bounds)
  /\ (forall e, highlight_annotation bounds color = Raise e -> e = ValueError).
Proof.
  intros bounds color. split; [split|].
  - intros [annotation H]. split.
    + intros ->. discriminate H.
    + unfold highlight_annotation in H.
      destruct (unpack4 (zip_star bounds)) as [[[[c0 c1] c2] c3]|]; [|discriminate].
      cbn [bind] in H.
      destruct (Py.min c0); [|discriminate]. cbn [bind] in H.
      destruct (Py.min c1); [|discriminate]. cbn [bind] in H.
      destruct (Py.max c2); [|discriminate]. cbn [bind] in H.
      destruct (Py.max c3); [|discriminate]. cbn [bind] in H.
      destruct (quad_points_loop bounds []) as [q|] eqn:Q; [|discriminate].
      eapply quad_points_loop_ok. exact Q.
  - intros [Hne Hall]. destruct (rows_of_boxes Hall) as [[|b boxes] ->];
      [contradiction|].
    rewrite highlight_annotation_boxes. eauto.
  - intros e H. unfold highlight_annotation in H.
    destruct (unpack4 (zip_star bounds)) as [[[[c0 c1] c2] c3]|] eqn:U;
      [|injection H as <-; eapply unpack4_raise; exact U].
    cbn [bind] in H.
    destruct (Py.min c0) eqn:M0;
      [|injection H as <-; eapply min_raise; exact M0]. cbn [bind] in H.
    destruct (Py.min c1) eqn:M1;
      [|injection H as <-; eapply min_raise; exact M1]. cbn [bind] in H.
    destruct (Py.max c2) eqn:M2;
      [|injection H as <-; eapply max_raise; exact M2]. cbn [bind] in H.
    destruct (Py.max c3) eqn:M3;
      [|injection H as <-; eapply max_raise; exact M3]. cbn [bind] in H.
    destruct (quad_points_loop bounds []) as [q|] eqn:Q; [discriminate|].
    injection H as <-. eapply quad_points_loop_raise. exact Q.
Qed.

(** Rows of unequal length: the columns are cut to the shortest row, but
    the second loop unpacks every row. *)
Example highlight_annotation_long_row :
  highlight_annotation [[1; 2; 3; 4]; [1; 2; 3; 4; 5]]%float default_color
  = Raise ValueError.
Proof. reflexivity. Qed.

(** X10. For well-formed boxes the rectangle of the annotation is itself a
    well-formed box, and it contains every input box. *)
Theorem highlight_annotation_rect_encloses : forall boxes color,
  boxes <> [] ->
  Forall well_formed boxes ->
  exists annotation r,
    highlight_annotation (map list_of_bbox boxes) color = Ok annotation
    /\ entry "/Rect" annotation
       = Some (ArrayObject (map FloatObject (list_of_bbox r)))
    /\ well_formed r
    /\ forall b, In b boxes -> contains r b = true.
Proof.
  intros [|b0 boxes] color Hne Hwf; [contradiction|].
  rewrite highlight_annotation_boxes. rewrite Forall_forall in Hwf.
  assert (Hnum : forall (f : BoundingBox -> float),
            (f = x0 \/ f = x1 \/ f = y0 \/ f = y1) ->
            forall y, In y (f b0 :: map f boxes) -> PrimFloat.leb y y = true).
  { intros f Hf y Hy. change (In y (map f (b0 :: boxes))) in Hy.
    apply in_map_iff in Hy. destruct Hy as (box & <- & Hin).
    destruct (Hwf box Hin) as [Hx Hy].
    destruct (leb_numbers Hx), (leb_numbers Hy).
    destruct Hf as [->|[->|[->| ->]]]; assumption. }
  destruct (@min_from_is_min (map x0 boxes) (x0 b0) (Hnum x0 (or_introl eq_refl)))
    as [_ Hx0].
  destruct (@min_from_is_min (map y0 boxes) (y0 b0)
              (Hnum y0 (or_intror (or_intror (or_introl eq_refl))))) as [_ Hy0].
  destruct (@max_from_is_max (map x1 boxes) (x1 b0)
              (Hnum x1 (or_intror (or_introl eq_refl)))) as [_ Hx1].
  destruct (@max_from_is_max (map y1 boxes) (y1 b0)
              (Hnum y1 (or_intror (or_intror (or_intror eq_refl))))) as [_ Hy1].
  assert (Hin : forall (f : BoundingBox -> float) b,
            In b (b0 :: boxes) -> In (f b) (f b0 :: map f boxes)).
  { intros f b Hb. change (In (f b) (map f (b0 :: boxes))).
    apply in_map. exact Hb. }
  eexists.
  exists (BBox (min_from (x0 b0) (map x0 boxes)) (min_from (y0 b0) (map y0 boxes))
               (max_from (x1 b0) (map x1 boxes)) (max_from (y1 b0) (map y1 boxes))).
  split; [reflexivity|]. split; [reflexivity|]. split.
  - destruct (Hwf b0 (or_introl eq_refl)) as [Hx Hy]. split; simpl.
    + apply (leb_trans (Hx0 _ (Hin x0 b0 (or_introl eq_refl)))).
      apply (leb_trans Hx). apply Hx1. apply (Hin x1). left. reflexivity.
    + apply (leb_trans (Hy0 _ (Hin y0 b0 (or_introl eq_refl)))).
      apply (leb_trans Hy). apply Hy1. apply (Hin y1). left. reflexivity.
  - intros b Hb. unfold contains. simpl.
    rewrite (Hx0 _ (Hin x0 b Hb)), (Hy0 _ (Hin y0 b Hb)),
      (Hx1 _ (Hin x1 b Hb)), (Hy1 _ (Hin y1 b Hb)). reflexivity.
Qed.

Lemma highlight_annotation_rect_encloses_witness :
  exists annotation r,
    highlight_annotation
      (map list_of_bbox [Samples.box_a; Samples.box_b; Samples.box_c]) default_color
    = Ok annotation
    /\ entry "/Rect" annotation
       = Some (ArrayObject (map FloatObject (list_of_bbox r)))
    /\ well_formed r
    /\ forall b, In b [Samples.box_a; Samples.box_b; Samples.box_c] ->
                 contains r b = true.
Proof.
  apply (@highlight_annotation_rect_encloses
           [Samples.box_a; Samples.box_b; Samples.box_c] default_color).
  - discriminate.
  - repeat constructor.
Defined.

(* ================================================================= *)
(** ** More on the pipeline *)

Lemma highlight_annotation_line : forall b,
  highlight_annotation [list_of_bbox b] default_color = Ok (box_highlight b).
Proof.
  intros b. change [list_of_bbox b] with (map list_of_bbox [b]).
  rewrite highlight_annotation_boxes. reflexivity.
Qed.

Lemma highlight_line_annots : forall layout page n old,
  annots page = Some old ->
  exists page',
    highlight_line layout page n = Ok page'
    /\ annots page' = Some (old ++ line_highlights layout n)
    /\ forall k, k <> "/Annots"%string -> dict_get k page' = dict_get k page.
Proof.
  intros layout page n old H. unfold highlight_line, line_highlights.
  rewrite extract_line_bboxes_text_lines.
  destruct (1 <=? n)%Z;
    [destruct (nth_error (text_lines layout) (Z.to_nat (n - 1))) as [b|]|].
  - rewrite highlight_annotation_line. cbn [bind].
    apply attach_annots. exact H.
  - exists page. rewrite app_nil_r. auto.
  - exists page. rewrite app_nil_r. auto.
Qed.

(** The cited lines of a page, one after the other. *)
Lemma highlight_lines_appended : forall layout lines page old,
  annots page = Some old ->
  exists page',
    highlight_lines layout page lines = Ok page'
    /\ annots page' = Some (old ++ flat_map (line_highlights layout) lines)
    /\ forall k, k <> "/Annots"%string -> dict_get k page' = dict_get k page.
Proof.
  intros layout. induction lines as [|n lines IH]; intros page old H.
  - exists page. simpl. rewrite app_nil_r. auto.
  - destruct (highlight_line_annots layout page n H) as (page1 & H1 & A1 & O1).
    destruct (IH page1 _ A1) as (page' & H' & A' & O').
    exists page'. cbn [highlight_lines flat_map]. rewrite H1. cbn [bind].
    split; [exact H'|]. split.
    + rewrite A', <- app_assoc. reflexivity.
    + intros k Hk. rewrite O', O1; auto.
Qed.

(** X11. Highlighting the cited lines of a page appends to its annotation
    list one highlight per cited line that the page has, in citation order
    (a line cited twice is highlighted twice, a line the page does not have
    is passed over); the annotations that were there stay in front and no
    other entry of the page changes.  The highlight of a line has the box of
    the line as its rectangle and as its quad. *)
Theorem highlight_lines_annots : forall layout lines page old,
  annots page = Some old ->
  exists page',
    highlight_lines layout page lines = Ok page'
    /\ annots page' = Some (old ++ flat_map (line_highlights layout) lines)
    /\ forall k, k <> "/Annots"%string -> dict_get k page' = dict_get k page.
Proof.
  intros layout lines page old H.
  destruct (highlight_lines_appended layout lines page H) as (page' & H1 & H2 & H3).
  exists page'. auto.
Qed.

Lemma highlight_lines_annots_witness :
  exists page',
    highlight_lines Samples.layout3 Samples.page_noted [3; 9; 1; 3]%Z = Ok page'
    /\ annots page'
       = Some ([Samples.note]
                 ++ [box_highlight Samples.box_c; box_highlight Samples.box_a;
                     box_highlight Samples.box_c])
    /\ forall k, k <> "/Annots"%string ->
                 dict_get k page' = dict_get k Samples.page_noted.
Proof.
  apply (@highlight_lines_annots Samples.layout3 [3; 9; 1; 3]%Z
           Samples.page_noted [Samples.note]).
  reflexivity.
Defined.

(** X12. On a page whose "/Annots" entry is not an array, highlighting
    fails with [AttributeError] as soon as a cited line exists on the page,
    and leaves the page as it is when none does. *)
Theorem highlight_lines_malformed : forall layout lines page,
  annots page = None ->
  highlight_lines layout page lines =
  if forallb (fun n => match line_highlights layout n with
                       | [] => true
                       | _ :: _ => false
                       end) lines
  then Ok page
  else Raise AttributeError.
Proof.
  intros layout lines page H. induction lines as [|n lines IH]; [reflexivity|].
  cbn [highlight_lines forallb]. unfold highlight_line, line_highlights at 1.
  rewrite extract_line_bboxes_text_lines.
  destruct (1 <=? n)%Z;
    [destruct (nth_error (text_lines layout) (Z.to_nat (n - 1))) as [b|]|];
    cbn [bind andb]; try exact IH.
  rewrite highlight_annotation_line. cbn [bind]. unfold attach, annots in *.
  destruct (dict_get "/Annots" page) as [[| | | | |]|]; try discriminate;
    reflexivity.
Qed.

Lemma highlight_lines_malformed_witness :
  highlight_lines Samples.layout3 [("/Annots", NullObject)]%string [7; 2]%Z
  = Raise AttributeError.
Proof.
  apply (@highlight_lines_malformed Samples.layout3 [7; 2]%Z
           [("/Annots", NullObject)]%string).
  reflexivity.
Defined.

Lemma lines_on_page_other : forall refs page_num,
  (forall p n, In (p, n) refs -> p = 1%Z) ->
  page_num <> 1%Z -> lines_on_page refs page_num = [].
Proof.
  intros refs page_num H Hp. unfold lines_on_page.
  induction refs as [|[p n] refs IH]; [reflexivity|].
  cbn [filter fst]. rewrite (H p n) by (left; reflexivity).
  replace (1 =? page_num)%Z with false by (symmetry; apply Z.eqb_neq; lia).
  apply IH. intros p' n' Hin. apply (H p' n'). right. exact Hin.
Qed.

Lemma lines_on_page_first : forall refs,
  (forall p n, In (p, n) refs -> p = 1%Z) ->
  lines_on_page refs 1 = map snd refs.
Proof.
  intros refs H. unfold lines_on_page.
  induction refs as [|[p n] refs IH]; [reflexivity|].
  cbn [filter fst]. rewrite (H p n) by (left; reflexivity).
  cbn [Z.eqb Pos.eqb map snd]. f_equal.
  apply IH. intros p' n' Hin. apply (H p' n'). right. exact Hin.
Qed.

(** The pages after the first are written as they are read. *)
Lemma process_pages_later : forall w pdf_content refs,
  (forall p n, In (p, n) refs -> p = 1%Z) ->
  forall pages page_num writer written,
    (1 < page_num)%Z ->
    process_pages w pdf_content refs page_num pages writer = Ok written ->
    written = writer ++ pages.
Proof.
  intros w pdf_content refs Hone.
  induction pages as [|page pages IH]; intros page_num writer written Hp H;
    cbn [process_pages] in H.
  - injection H as <-. rewrite app_nil_r. reflexivity.
  - destruct (extract_pages w pdf_content) as [layouts|]; [|discriminate].
    cbn [bind] in H.
    destruct (index layouts (page_num - 1)) as [layout|]; [|discriminate].
    cbn [bind] in H.
    rewrite lines_on_page_other in H by (auto; lia). cbn [bind] in H.
    apply IH in H; [|lia]. rewrite H, <- app_assoc. reflexivity.
Qed.

(** X13. Every reference has page 1, so only the first page can change:
    whenever the loop over the pages succeeds, it has written as many pages
    as were read, and all but the first are written exactly as read. *)
Theorem process_pages_first_page_only :
  forall w pdf_content s refs page1 rest written,
    extract_lines s = Ok refs ->
    process_pages w pdf_content refs 1 (page1 :: rest) [] = Ok written ->
    exists page1', written = page1' :: rest.
Proof.
  intros w pdf_content s refs page1 rest written Hrefs H.
  assert (Hone : forall p n, In (p, n) refs -> p = 1%Z)
    by (intros p n Hin; eapply extract_lines_page_one; eauto).
  cbn [process_pages] in H.
  destruct (extract_pages w pdf_content) as [layouts|]; [|discriminate].
  cbn [bind] in H.
  destruct (index layouts (1 - 1)) as [layout|]; [|discriminate].
  cbn [bind] in H.
  destruct (match lines_on_page refs 1 with
            | [] => Ok page1
            | (_ :: _) as lines_to_highlight =>
                highlight_lines layout page1 lines_to_highlight
            end) as [page1'|]; [|discriminate].
  cbn [bind] in H.
  apply (process_pages_later w pdf_content refs Hone) in H; [|lia].
  exists page1'. exact H.
Qed.

Lemma process_pages_first_page_only_witness :
  exists page1',
    [[("/Type", NameObject "/Page");
      ("/Annots", ArrayObject [Samples.note; box_highlight Samples.box_b])]%string;
     Samples.page_plain]
    = page1' :: [Samples.page_plain].
Proof.
  apply (@process_pages_first_page_only Samples.world_doc []
           (str "(doc.pdf, Lines 2-2)") [(1, 2)]%Z
           Samples.page_noted [Samples.page_plain]); reflexivity.
Defined.

Lemma process_pages_later_ok : forall w pdf_content refs layouts,
  (forall p n, In (p, n) refs -> p = 1%Z) ->
  extract_pages w pdf_content = Ok layouts ->
  forall pages page_num writer,
    (1 < page_num)%Z ->
    (Z.to_nat (page_num - 1) + length pages <= length layouts)%nat ->
    process_pages w pdf_content refs page_num pages writer = Ok (writer ++ pages).
Proof.
  intros w pdf_content refs layouts Hone Hlay.
  induction pages as [|page pages IH]; intros page_num writer Hp Hlen;
    cbn [process_pages].
  - rewrite app_nil_r. reflexivity.
  - rewrite Hlay. cbn [bind]. unfold index.
    destruct (nth_error layouts (Z.to_nat (page_num - 1))) as [layout|] eqn:E.
    2:{ apply nth_error_None in E. simpl in Hlen. lia. }
    cbn [bind]. rewrite lines_on_page_other by (auto; lia). cbn [bind].
    rewrite IH by (simpl in Hlen; lia). rewrite <- app_assoc. reflexivity.
Qed.

(** X14. End to end: when the document is fetched with status 200, the text
    yields references, and the first page (with an annotation list [old],
    possibly empty) and its layout are read, then the first page goes to the
    writer with one highlight appended per cited line it has, in citation
    order, the other pages go as read, and the response is the written PDF
    with status 200 (500 with the error when writing raises). *)
Theorem view_pdf_highlights :
  forall w s fetched refs page1 rest layout1 layouts old,
    requests_get w (PDF_URL (extract_document_name s)) = Ok fetched ->
    status_code fetched = 200%Z ->
    extract_lines s = Ok refs -> refs <> [] ->
    PdfReader_pages w (content fetched) = Ok (page1 :: rest) ->
    extract_pages w (content fetched) = Ok (layout1 :: layouts) ->
    (length rest <= length layouts)%nat ->
    annots page1 = Some old ->
    exists page1',
      annots page1'
      = Some (old ++ flat_map (line_highlights layout1) (map snd refs))
      /\ (forall k, k <> "/Annots"%string -> dict_get k page1' = dict_get k page1)
      /\ view_pdf w (Some s)
         = ([HttpGet (PDF_URL (extract_document_name s))],
            match PdfWriter_write w (page1' :: rest) with
            | Ok output => Ok (Response (PdfFile output) 200)
            | Raise e => Ok (Response (ErrorOccurred e) 500)
            end).
Proof.
  intros w s fetched refs page1 rest layout1 layouts old Hget Hst Hrefs Hne
         Hread Hlay Hlen Hold.
  assert (Hone : forall p n, In (p, n) refs -> p = 1%Z)
    by (intros p n Hin; eapply extract_lines_page_one; eauto).
  destruct (highlight_lines_appended layout1 (map snd refs) page1 Hold)
    as (page1' & Hh & Ha & Ho).
  exists page1'. split; [exact Ha|]. split; [exact Ho|].
  assert (Hrest : process_pages w (content fetched) refs 1 (page1 :: rest) []
                  = Ok (page1' :: rest)).
  { cbn [process_pages]. rewrite Hlay. cbn [bind].
    change (index (layout1 :: layouts) (1 - 1)) with (Ok layout1). cbn [bind].
    rewrite (lines_on_page_first refs Hone).
    assert (Hp : match map snd refs with
                 | [] => Ok page1
                 | (_ :: _) as lines_to_highlight =>
                     highlight_lines layout1 page1 lines_to_highlight
                 end = Ok page1').
    { destruct refs as [|r refs]; [contradiction|]. exact Hh. }
    rewrite Hp. cbn [bind].
    assert (Hun : process_pages w (content fetched) refs (1 + 1) rest
                    ([] ++ [page1']) = Ok (([] ++ [page1']) ++ rest)).
    { apply (process_pages_later_ok w (content fetched) refs Hone Hlay);
        [lia | simpl; lia]. }
    exact Hun. }
  unfold view_pdf. rewrite Hget. cbn [bind]. rewrite Hst. cbn [Z.eqb Pos.eqb negb].
  destruct s as [|c s]; [rewrite extract_lines_nil in Hrefs; congruence|].
  rewrite Hrefs. cbn [bind].
  destruct refs as [|r refs]; [contradiction|].
  unfold annotate. rewrite Hread. cbn [bind]. rewrite Hrest. cbn [bind].
  destruct (PdfWriter_write w (page1' :: rest)); reflexivity.
Qed.

Lemma view_pdf_highlights_witness :
  exists page1',
    annots page1'
    = Some ([Samples.note]
              ++ flat_map (line_highlights Samples.layout3) (map snd [(1, 2); (1, 3)]%Z))
    /\ (forall k, k <> "/Annots"%string ->
                  dict_get k page1' = dict_get k Samples.page_noted)
    /\ view_pdf Samples.world_doc (Some (str "(doc.pdf, Lines 2-3)"))
       = ([HttpGet (PDF_URL (extract_document_name (str "(doc.pdf, Lines 2-3)")))],
          match PdfWriter_write Samples.world_doc (page1' :: [Samples.page_plain]) with
          | Ok output => Ok (Response (PdfFile output) 200)
          | Raise e => Ok (Response (ErrorOccurred e) 500)
          end).
Proof.
  apply (@view_pdf_highlights Samples.world_doc (str "(doc.pdf, Lines 2-3)")
           (HttpResponse 200 [Byte.x25; Byte.x50]) [(1, 2); (1, 3)]%Z
           Samples.page_noted [Samples.page_plain] Samples.layout3 [[]]
           [Samples.note]); try reflexivity.
  discriminate.
Defined.

(** X15. [view_pdf] lets an exception out in two cases only: the request
    for the document raises, or the document is served with status 200 and
    [extract_lines], which is called before the [try], raises (the
    [ValueError] of [int] on a number of more than 4300 digits).  Whatever
    fails while the PDF is read, laid out, annotated or written ends in a
    response. *)
Theorem view_pdf_raises : forall w args e,
  let s := match args with Some t => t | None => [] end in
  snd (view_pdf w args) = Raise e <->
  requests_get w (PDF_URL (extract_document_name s)) = Raise e
  \/ (exists fetched,
        requests_get w (PDF_URL (extract_document_name s)) = Ok fetched
        /\ status_code fetched = 200%Z
        /\ extract_lines s = Raise e
        /\ e = ValueError /\ lines_within_limit s = false).
Proof.
  intros w args e s.
  assert (Hv : snd (view_pdf w args) = snd (view_pdf w (Some s)))
    by (destruct args; reflexivity).
  rewrite Hv. clearbody s. clear Hv. unfold view_pdf. cbv zeta. cbn [snd].
  split.
  - destruct (requests_get w (PDF_URL (extract_document_name s))) as [fetched|e'];
      cbn [bind]; [|intros [= <-]; left; reflexivity].
    destruct (status_code fetched =? 200)%Z eqn:E; cbn [negb]; [|intros H; discriminate H].
    apply Z.eqb_eq in E.
    destruct s as [|c s]; [intros H; discriminate H|].
    destruct (extract_lines (c :: s)) as [refs|e'] eqn:Hrefs; cbn [bind].
    + destruct refs as [|r refs]; [intros H; discriminate H|].
      destruct (annotate w (content fetched) (r :: refs)); intros H; discriminate H.
    + intros [= <-]. right. exists fetched.
      destruct (extract_lines_raise _ Hrefs) as [-> Hl]. repeat split; auto.
  - intros [H|(fetched & H & Hst & Hrefs & _)]; rewrite H; cbn [bind];
      [reflexivity|].
    rewrite Hst. cbn [Z.eqb Pos.eqb negb].
    destruct s as [|c s]; [rewrite extract_lines_nil in Hrefs; discriminate Hrefs|].
    rewrite Hrefs. reflexivity.
Qed.

(** The document is served, and the exception of [int] leaves [view_pdf]. *)
Example view_pdf_long_number :
  snd (view_pdf Samples.world_doc
         (Some (str "(doc.pdf, Lines " ++ repeat "0"%char 4301 ++ str "-0)")))
  = Raise ValueError.
Proof. vm_compute. reflexivity. Qed.

(** X16. The outcomes of [view_pdf]: a response is the fetch error (500)
    when the document is not served with status 200; otherwise the text
    "No chatbot response provided." with status 200 for a missing or empty
    parameter, the 400 "No lines to highlight." for a text without
    references, and for a text with references either the annotated PDF with
    status 200 or, when anything raised on the way, the error with status
    500.  A PDF is never sent with another status, nor without the whole
    document having been processed. *)
Theorem view_pdf_outcomes : forall w args r,
  snd (view_pdf w args) = Ok r ->
  let s := match args with Some t => t | None => [] end in
  exists fetched,
    requests_get w (PDF_URL (extract_document_name s)) = Ok fetched
    /\ ((status_code fetched <> 200%Z
         /\ r = Response (Text "Unable to fetch the PDF.") 500)
        \/ (status_code fetched = 200%Z /\ s = []
            /\ r = Response (Text "No chatbot response provided.") 200)
        \/ (status_code fetched = 200%Z /\ s <> []
            /\ extract_lines s = Ok []
            /\ r = Response (Text "No lines to highlight.") 400)
        \/ (status_code fetched = 200%Z /\ s <> []
            /\ exists refs,
                 extract_lines s = Ok refs /\ refs <> []
                 /\ ((exists output,
                        annotate w (content fetched) refs = Ok output
                        /\ r = Response (PdfFile output) 200)
                     \/ (exists e,
                           annotate w (content fetched) refs = Raise e
                           /\ r = Response (ErrorOccurred e) 500)))).
Proof.
  intros w args r. unfold view_pdf. cbn [snd].
  set (s := match args with Some t => t | None => [] end). cbv zeta.
  destruct (requests_get w (PDF_URL (extract_document_name s))) as [fetched|e'];
    cbn [bind]; [|discriminate].
  intros H. exists fetched. split; [reflexivity|].
  destruct (status_code fetched =? 200)%Z eqn:E; cbn [negb] in H.
  2:{ apply Z.eqb_neq in E. injection H as <-. left. auto. }
  apply Z.eqb_eq in E. right.
  destruct s as [|c s]; [injection H as <-; left; auto|]. right.
  destruct (extract_lines (c :: s)) as [refs|] eqn:Hrefs; cbn [bind] in H;
    [|discriminate].
  destruct refs as [|p refs].
  - injection H as <-. left. repeat split; auto. discriminate.
  - right. split; [exact E|]. split; [discriminate|].
    exists (p :: refs). split; [reflexivity|]. split; [discriminate|].
    destruct (annotate w (content fetched) (p :: refs)) as [output|e];
      injection H as <-; [left|right]; eauto.
Qed.

Lemma view_pdf_outcomes_witness :
  exists fetched,
    requests_get Samples.world_doc (PDF_URL (extract_document_name [])) = Ok fetched
    /\ ((status_code fetched <> 200%Z
         /\ Response (Text "No chatbot response provided.") 200
            = Response (Text "Unable to fetch the PDF.") 500)
        \/ (status_code fetched = 200%Z /\ @nil ascii = []
            /\ Response (Text "No chatbot response provided.") 200
               = Response (Text "No chatbot response provided.") 200)
        \/ (status_code fetched = 200%Z /\ @nil ascii <> []
            /\ extract_lines [] = Ok []
            /\ Response (Text "No chatbot response provided.") 200
               = Response (Text "No lines to highlight.") 400)
        \/ (status_code fetched = 200%Z /\ @nil ascii <> []
            /\ exists refs,
                 extract_lines [] = Ok refs /\ refs <> []
                 /\ ((exists output,
                        annotate Samples.world_doc (content fetched) refs = Ok output
                        /\ Response (Text "No chatbot response provided.") 200
                           = Response (PdfFile output) 200)
                     \/ (exists e,
                           annotate Samples.world_doc (content fetched) refs = Raise e
                           /\ Response (Text "No chatbot response provided.") 200
                              = Response (ErrorOccurred e) 500)))).
Proof.
  apply (@view_pdf_outcomes Samples.world_doc None
           (Response (Text "No chatbot response provided.") 200)).
  reflexivity.
Defined.

(* ================================================================= *)
(** ** The line-extraction endpoint *)

(** X17. For a body with a non-empty string in "response" on which
    [extract_lines] returns, the answer has status 200 and holds one pair
    [[1, line]] per reference of the text, in order; a text without
    references is answered with the empty array and status 200 all the
    same.  When [extract_lines] raises, its exception leaves the function. *)
Theorem process_response_text : forall entries s,
  dict_get "response" entries = Some (JString s) ->
  s <> [] ->
  (forall refs,
     extract_lines s = Ok refs ->
     process_response (JObject entries)
     = Ok (JArray (map (fun pl => JArray [JInt 1; JInt (snd pl)]) refs), 200%Z))
  /\ (forall e,
        extract_lines s = Raise e -> process_response (JObject entries) = Raise e).
Proof.
  intros entries s H Hne. unfold process_response. cbn [bind]. rewrite H.
  cbn [truthy]. destruct s as [|c s]; [contradiction|]. split.
  - intros refs Hrefs. rewrite Hrefs. cbn [bind]. unfold jsonify_lines.
    do 3 f_equal. apply map_ext_in. intros [p n] Hin. cbn [fst snd].
    rewrite (@extract_lines_page_one _ _ p n Hrefs Hin). reflexivity.
  - intros e Hrefs. rewrite Hrefs. reflexivity.
Qed.

Lemma process_response_text_witness :
  (forall refs,
     extract_lines (str "no citation here") = Ok refs ->
     process_response (JObject [("response", JString (str "no citation here"))]%string)
     = Ok (JArray (map (fun pl => JArray [JInt 1; JInt (snd pl)]) refs), 200%Z))
  /\ (forall e,
        extract_lines (str "no citation here") = Raise e ->
        process_response (JObject [("response", JString (str "no citation here"))]%string)
        = Raise e).
Proof.
  apply (@process_response_text
           [("response", JString (str "no citation here"))]%string
           (str "no citation here")).
  - reflexivity.
  - discriminate.
Defined.

(** X18. The status 400 is given exactly for a JSON object whose "response"
    is missing or has no truth value (null, false, 0, the empty string, array
    or object); the answer is then the empty array.  Every other answer has
    status 200. *)
Theorem process_response_status : forall data body status,
  process_response data = Ok (body, status) ->
  (status = 200%Z \/ status = 400%Z)
  /\ (status = 400%Z <->
      body = JArray []
      /\ exists entries,
           data = JObject entries
           /\ truthy match dict_get "response" entries with
                     | Some v => v
                     | None => JNull
                     end = false).
Proof.
  intros data body status H. unfold process_response in H.
  destruct data as [| | | | | |entries]; try discriminate. cbn [bind] in H.
  destruct (truthy match dict_get "response" entries with
                   | Some v => v
                   | None => JNull
                   end) eqn:T.
  - destruct (match dict_get "response" entries with
              | Some v => v
              | None => JNull
              end) as [| | | |s| |] eqn:G; try discriminate.
    destruct (extract_lines s) as [refs|e]; [|discriminate]. cbn [bind] in H.
    injection H as <- <-. split; [auto|]. split; [discriminate|].
    intros (_ & entries' & [= <-] & T'). rewrite G in T'. congruence.
  - injection H as <- <-. split; [auto|]. split; [|reflexivity].
    intros _. split; [reflexivity|]. exists entries. auto.
Qed.

Lemma process_response_status_witness :
  (400 = 200 \/ 400 = 400)%Z
  /\ (400%Z = 400%Z <->
      JArray [] = JArray []
      /\ exists entries,
           JObject [("response", JString [])]%string = JObject entries
           /\ truthy match dict_get "response" entries with
                     | Some v => v
                     | None => JNull
                     end = false).
Proof.
  apply (@process_response_status
           (JObject [("response", JString [])]%string) (JArray []) 400%Z).
  reflexivity.
Defined.

(** X19. [process_response] raises in three cases only: the body is not a
    JSON object ([AttributeError], there is no [get]); its "response" has a
    truth value and is not a string (the [TypeError] of [re.findall]); or it
    is a non-empty string on which [extract_lines] raises (the [ValueError]
    of [int] on a number of more than 4300 digits). *)
Theorem process_response_raises : forall data e,
  process_response data = Raise e <->
  ((forall entries, data <> JObject entries) /\ e = AttributeError)
  \/ (exists entries v,
        data = JObject entries /\ dict_get "response" entries = Some v
        /\ truthy v = true /\ (forall s, v <> JString s)
        /\ e = External "TypeError: expected string or bytes-like object")
  \/ (exists entries s,
        data = JObject entries
        /\ dict_get "response" entries = Some (JString s)
        /\ s <> [] /\ lines_within_limit s = false /\ e = ValueError).
Proof.
  intros data e. unfold process_response. split.
  - destruct data as [| | | | | |entries]; cbn [bind];
      try (intros [= <-]; left; split; [discriminate|reflexivity]).
    destruct (dict_get "response" entries) as [v|] eqn:G;
      [|intros H; discriminate H].
    destruct (truthy v) eqn:T; [|intros H; discriminate H].
    destruct v as [| | | |s| |]; try discriminate T;
      try (cbn [bind]; intros [= <-]; right; left; exists entries; eexists;
           repeat split; eauto; discriminate).
    destruct (extract_lines s) as [refs|e'] eqn:Hrefs; cbn [bind];
      [intros H; discriminate H|].
    intros [= <-]. right. right. exists entries, s.
    destruct (extract_lines_raise _ Hrefs) as [-> Hl].
    repeat split; auto. intros ->. discriminate T.
  - intros [[Hd ->]|[(entries & v & -> & G & T & Hv & ->)
                    |(entries & s & -> & G & Hne & Hl & ->)]].
    + destruct data as [| | | | | |entries]; try reflexivity.
      exfalso. apply (Hd entries). reflexivity.
    + cbn [bind]. rewrite G, T.
      destruct v as [| | | |s| |]; try reflexivity.
      exfalso. apply (Hv s). reflexivity.
    + cbn [bind]. rewrite G. cbn [truthy].
      destruct s as [|c s]; [contradiction|].
      rewrite extract_lines_cases, Hl. reflexivity.
Qed.

(** The long number of a cited range leaves [process_response] as the
    exception of [int]. *)
Example process_response_long_number :
  process_response
    (JObject [("response"%string,
               JString (str "Lines " ++ repeat "0"%char 4301 ++ str "-0"))])
  = Raise ValueError.
Proof. vm_compute. reflexivity. Qed.

(* ================================================================= *)
(** ** The containment test *)

Lemma Prim2SF_zero : Prim2SF 0%float = S754_zero false.
Proof. reflexivity. Qed.

Lemma SFcompare_add_zero_r : forall a x,
  SFcompare a (SF64add x (S754_zero false)) = SFcompare a x.
Proof.
  intros a [sx|sx| |sx mx ex]; try reflexivity.
  destruct sx; [|reflexivity].
  destruct a as [sa|sa| |sa ma ea]; reflexivity.
Qed.

Lemma SFcompare_sub_zero_l : forall a x,
  SFcompare (SF64sub x (S754_zero false)) a = SFcompare x a.
Proof.
  intros a [sx|sx| |sx mx ex]; try reflexivity.
  destruct sx; [reflexivity|].
  destruct a as [sa|sa| |sa ma ea]; reflexivity.
Qed.

Lemma leb_add_zero : forall a x : float,
  PrimFloat.leb a (x + 0)%float = PrimFloat.leb a x.
Proof.
  intros a x. rewrite !FloatAxioms.leb_spec, FloatAxioms.add_spec, Prim2SF_zero.
  unfold SFleb. rewrite SFcompare_add_zero_r. reflexivity.
Qed.

Lemma leb_sub_zero : forall a x : float,
  PrimFloat.leb (x - 0)%float a = PrimFloat.leb x a.
Proof.
  intros a x. rewrite !FloatAxioms.leb_spec, FloatAxioms.sub_spec, Prim2SF_zero.
  unfold SFleb. rewrite SFcompare_sub_zero_l. reflexivity.
Qed.

(** X20. With margin 0 the test is plain containment: the box lies within
    the constraint box exactly when the constraint box contains it. *)
Theorem is_within_bbox_margin_zero : forall b c,
  is_within_bbox (list_of_bbox b) (list_of_bbox c) 0%float = Ok (contains c b).
Proof.
  intros b c. unfold is_within_bbox, contains. cbn [list_of_bbox unpack4 bind].
  rewrite !leb_add_zero, !leb_sub_zero. reflexivity.
Qed.

Lemma is_nan_spec : forall x : float, is_nan x = true -> Prim2SF x = S754_nan.
Proof.
  intros x H. unfold is_nan in H. apply negb_true_iff in H.
  rewrite FloatAxioms.eqb_spec in H. unfold SFeqb in H.
  destruct (Prim2SF x) as [sx|sx| |sx mx ex]; try reflexivity; simpl in H.
  - discriminate.
  - destruct sx; discriminate.
  - change (Pos.compare_cont Eq mx mx) with (Pos.compare mx mx) in H.
    rewrite Z.compare_refl, Pos.compare_refl in H. destruct sx; discriminate.
Qed.

Lemma leb_nan_l : forall x y : float, is_nan x = true -> PrimFloat.leb x y = false.
Proof.
  intros x y H. rewrite FloatAxioms.leb_spec, (is_nan_spec _ H). reflexivity.
Qed.

Lemma leb_nan_r : forall x y : float, is_nan y = true -> PrimFloat.leb x y = false.
Proof.
  intros x y H. rewrite FloatAxioms.leb_spec, (is_nan_spec _ H). unfold SFleb.
  destruct (Prim2SF x); reflexivity.
Qed.

Lemma add_nan : forall x y : float,
  is_nan x = true \/ is_nan y = true -> Prim2SF (x + y)%float = S754_nan.
Proof.
  intros x y [H|H]; rewrite FloatAxioms.add_spec, (is_nan_spec _ H);
    [|destruct (Prim2SF x)]; reflexivity.
Qed.

Lemma sub_nan : forall x y : float,
  is_nan x = true \/ is_nan y = true -> Prim2SF (x - y)%float = S754_nan.
Proof.
  intros x y [H|H]; rewrite FloatAxioms.sub_spec, (is_nan_spec _ H);
    [|destruct (Prim2SF x)]; reflexivity.
Qed.

Lemma leb_r_nan_spec : forall x y : float,
  Prim2SF y = S754_nan -> PrimFloat.leb x y = false.
Proof.
  intros x y H. rewrite FloatAxioms.leb_spec, H. unfold SFleb.
  destruct (Prim2SF x); reflexivity.
Qed.

Lemma leb_l_nan_spec : forall x y : float,
  Prim2SF x = S754_nan -> PrimFloat.leb x y = false.
Proof. intros x y H. rewrite FloatAxioms.leb_spec, H. reflexivity. Qed.

(** X21. A NaN among the coordinates of either box, or as the margin, makes
    the test false. *)
Theorem is_within_bbox_nan : forall b c margin,
  existsb is_nan (list_of_bbox b ++ list_of_bbox c ++ [margin]) = true ->
  is_within_bbox (list_of_bbox b) (list_of_bbox c) margin = Ok false.
Proof.
  intros b c margin H. unfold is_within_bbox.
  cbn [list_of_bbox unpack4 bind]. f_equal.
  cbn [list_of_bbox app existsb] in H.
  repeat (apply orb_true_iff in H; destruct H as [H|H]);
    try discriminate H.
  - rewrite (@leb_r_nan_spec (x0 c) _ (add_nan (x0 b) margin (or_introl H))).
    reflexivity.
  - rewrite (@leb_r_nan_spec (y0 c) _ (add_nan (y0 b) margin (or_introl H))).
    rewrite andb_false_r. reflexivity.
  - rewrite (@leb_l_nan_spec _ (x1 c) (sub_nan (x1 b) margin (or_introl H))).
    rewrite andb_false_r. reflexivity.
  - rewrite (@leb_l_nan_spec _ (y1 c) (sub_nan (y1 b) margin (or_introl H))).
    rewrite andb_false_r. reflexivity.
  - rewrite (@leb_nan_l _ _ H). reflexivity.
  - rewrite (@leb_nan_l _ _ H), andb_false_r. reflexivity.
  - rewrite (@leb_nan_r _ _ H), andb_false_r. reflexivity.
  - rewrite (@leb_nan_r _ _ H), andb_false_r. reflexivity.
  - rewrite (@leb_r_nan_spec (x0 c) _ (add_nan (x0 b) margin (or_intror H))).
    reflexivity.
Qed.

Lemma is_within_bbox_nan_witness :
  is_within_bbox (list_of_bbox Samples.box_a)
    (list_of_bbox (BBox 0 nan 1000 1000)%float) default_margin = Ok false.
Proof.
  apply is_within_bbox_nan. reflexivity.
Defined.

(* ================================================================= *)
(** ** Bounds *)

Lemma digits_value_nonneg : forall ds,
  forallb is_digit ds = true -> (0 <= digits_value ds)%Z.
Proof.
  intros ds. unfold digits_value.
  assert (H : forall acc, (0 <= acc)%Z -> forallb is_digit ds = true ->
            (0 <= fold_left (fun a c => 10 * a + digit_value c) ds acc)%Z).
  { induction ds as [|d ds IH]; intros acc Hacc Hd; cbn [fold_left];
      [exact Hacc|].
    cbn [forallb] in Hd. apply andb_true_iff in Hd. destruct Hd as [H1 H2].
    apply IH; [|exact H2].
    unfold is_digit in H1. cbv zeta in H1. apply andb_true_iff in H1.
    destruct H1 as [H1 _]. apply Nat.leb_le in H1. unfold digit_value.
    assert (48 <= Z.of_nat (nat_of_ascii d))%Z
      by (change 48%Z with (Z.of_nat 48); apply Nat2Z.inj_le; exact H1).
    lia. }
  apply H. lia.
Qed.

Lemma lines_occurrences_nonneg : forall s A B,
  In (A, B) (lines_occurrences s) -> (0 <= A)%Z.
Proof.
  induction s as [|c s IH]; intros A B H; [contradiction|].
  cbn [lines_occurrences] in H.
  destruct (lines_at (c :: s)) as [[[da db] rest]|] eqn:E; [|eauto].
  destruct H as [[= <- <-]|H]; [|eauto].
  apply lines_at_iff in E. destruct E as (_ & _ & Da & _).
  apply digits_value_nonneg. exact Da.
Qed.

(** X22. No reference has a negative line number. *)
Theorem extract_lines_nonnegative : forall s refs p n,
  extract_lines s = Ok refs -> In (p, n) refs -> (0 <= n)%Z.
Proof.
  intros s refs p n H Hin. apply extract_lines_ok in H. destruct H as [_ ->].
  apply in_flat_map in Hin.
  destruct Hin as ([A B] & Ho & Hin). apply expand_In in Hin. simpl in Hin.
  apply lines_occurrences_nonneg in Ho. lia.
Qed.

Lemma extract_lines_nonnegative_witness : (0 <= 1)%Z.
Proof.
  apply (@extract_lines_nonnegative (str "Lines 0-1") [(1, 0); (1, 1)]%Z 1%Z 1%Z).
  - reflexivity.
  - right. left. reflexivity.
Defined.

(** With fewer layouts than pages the loop over the later pages ends in an
    [IndexError]. *)
Lemma process_pages_short_layouts : forall w pdf_content refs layouts,
  (forall p n, In (p, n) refs -> p = 1%Z) ->
  extract_pages w pdf_content = Ok layouts ->
  forall pages page_num writer,
    (1 < page_num)%Z ->
    (Z.to_nat (page_num - 1) <= length layouts)%nat ->
    (length layouts < Z.to_nat (page_num - 1) + length pages)%nat ->
    process_pages w pdf_content refs page_num pages writer = Raise IndexError.
Proof.
  intros w pdf_content refs layouts Hone Hlay.
  induction pages as [|page pages IH]; intros page_num writer Hp Hle Hlt;
    [simpl in Hlt; lia|].
  cbn [process_pages]. rewrite Hlay. cbn [bind]. unfold index.
  destruct (nth_error layouts (Z.to_nat (page_num - 1))) as [layout|] eqn:E;
    [|reflexivity].
  cbn [bind]. rewrite lines_on_page_other by (auto; lia). cbn [bind].
  assert (Z.to_nat (page_num - 1) < length layouts)%nat
    by (apply nth_error_Some; congruence).
  apply IH; [lia| |simpl in Hlt]; lia.
Qed.

(** X23. When the layout extraction yields fewer pages than the reader
    (at least one), no PDF is sent: once the first page is done the loop
    runs out of layouts, and the response is the error [IndexError] with
    status 500. *)
Theorem view_pdf_short_layouts :
  forall w s fetched refs page1 rest layout1 layouts old,
    requests_get w (PDF_URL (extract_document_name s)) = Ok fetched ->
    status_code fetched = 200%Z ->
    extract_lines s = Ok refs -> refs <> [] ->
    PdfReader_pages w (content fetched) = Ok (page1 :: rest) ->
    extract_pages w (content fetched) = Ok (layout1 :: layouts) ->
    (length layouts < length rest)%nat ->
    annots page1 = Some old ->
    view_pdf w (Some s)
    = ([HttpGet (PDF_URL (extract_document_name s))],
       Ok (Response (ErrorOccurred IndexError) 500)).
Proof.
  intros w s fetched refs page1 rest layout1 layouts old Hget Hst Hrefs Hne
         Hread Hlay Hlen Hold.
  assert (Hone : forall p n, In (p, n) refs -> p = 1%Z)
    by (intros p n Hin; eapply extract_lines_page_one; eauto).
  destruct (highlight_lines_appended layout1 (map snd refs) page1 Hold)
    as (page1' & Hh & _).
  assert (Hrest : process_pages w (content fetched) refs 1 (page1 :: rest) []
                  = Raise IndexError).
  { cbn [process_pages]. rewrite Hlay. cbn [bind].
    change (index (layout1 :: layouts) (1 - 1)) with (Ok layout1). cbn [bind].
    rewrite (lines_on_page_first refs Hone).
    assert (Hp : match map snd refs with
                 | [] => Ok page1
                 | (_ :: _) as lines_to_highlight =>
                     highlight_lines layout1 page1 lines_to_highlight
                 end = Ok page1').
    { destruct refs as [|r refs]; [contradiction|]. exact Hh. }
    rewrite Hp. cbn [bind].
    apply (process_pages_short_layouts w (content fetched) refs Hone Hlay);
      simpl; lia. }
  unfold view_pdf. rewrite Hget. cbn [bind]. rewrite Hst. cbn [Z.eqb Pos.eqb negb].
  destruct s as [|c s]; [rewrite extract_lines_nil in Hrefs; congruence|].
  rewrite Hrefs. cbn [bind].
  destruct refs as [|r refs]; [contradiction|].
  unfold annotate. rewrite Hread. cbn [bind]. rewrite Hrest. reflexivity.
Qed.

Lemma view_pdf_short_layouts_witness :
  view_pdf
    {| requests_get := fun _ => Ok (HttpResponse 200 []);
       PdfReader_pages := fun _ => Ok [Samples.page_noted; Samples.page_plain];
       extract_pages := fun _ => Ok [Samples.layout3];
       PdfWriter_write := fun _ => Ok [] |}
    (Some (str "(doc.pdf, Lines 2-3)"))
  = ([HttpGet (PDF_URL (extract_document_name (str "(doc.pdf, Lines 2-3)")))],
     Ok (Response (ErrorOccurred IndexError) 500)).
Proof.
  apply (@view_pdf_short_layouts _ (str "(doc.pdf, Lines 2-3)")
           (HttpResponse 200 []) [(1, 2); (1, 3)]%Z
           Samples.page_noted [Samples.page_plain] Samples.layout3 []
           [Samples.note]); try reflexivity.
  - discriminate.
  - simpl. lia.
Defined.
